(** * AutoIngressAudio: the provisioning script [setup.py]

    The script provisions a fixed topology at a cloud provider: a bucket, a
    queue, a queue policy letting the bucket publish into the queue, a bucket
    notification configuration and an identity with a policy and an access
    key.  It is a straight sequence of remote calls with Python's exception
    discipline around them.

    The embedding is shallow.  A Python function becomes a computation in a
    small monad [M] that threads the provider's state, can raise a Python
    exception and records, in order, every remote call (with the provider's
    answer) and every line printed.  The provider (what boto3 talks to) and
    the library function [json.dumps] are parameters of the development: the
    theorems hold for every provider, and a reference provider [SimAWS] is
    used to run the script on concrete inputs.

    Outside the model: the construction of the three clients when the
    module is loaded, which precedes [main], and exceptions that are not
    subclasses of [Exception] (an interrupt from the keyboard). *)

From Stdlib Require Import String Ascii List Bool Arith Lia.
Import ListNotations.
Local Open Scope string_scope.
Local Open Scope list_scope.

Local Set Warnings "-register-all".

(** ** Python values *)

(** The values that travel between the script and the provider: text, lists
    and dictionaries with text keys (in insertion order, as Python keeps
    them). *)
Inductive pyval : Type :=
| VStr (s : string)
| VList (l : list pyval)
| VDict (d : list (string * pyval)).

(** The exceptions the script can meet.  Each of them is a subclass of
    Python's [Exception], hence caught by [except Exception]. *)
Inductive exn : Type :=
| ClientError (code : string) (message : string)
| KeyError (key : string)
| TypeError (message : string).

(** Lookup of a key in a dictionary's items. *)
Fixpoint assoc (k : string) (d : list (string * pyval)) : option pyval :=
  match d with
  | [] => None
  | (k', v) :: d' => if String.eqb k k' then Some v else assoc k d'
  end.

(** [v[k]] for a text key [k]: [KeyError] when the key is absent,
    [TypeError] when [v] is not a dictionary. *)
Definition subscript (v : pyval) (k : string) : exn + pyval :=
  match v with
  | VDict d =>
      match assoc k d with
      | Some x => inr x
      | None => inl (KeyError k)
      end
  | VStr _ => inl (TypeError "string indices must be integers")
  | VList _ => inl (TypeError "list indices must be integers or slices, not str")
  end.

(** ** Remote calls *)

(** The boto3 client methods the script calls, with their keyword
    arguments. *)
Inductive api_call : Type :=
| S3_create_bucket (Bucket : string) (CreateBucketConfiguration : option pyval)
| SQS_create_queue (QueueName : string) (Attributes : pyval)
| SQS_get_queue_attributes (QueueUrl : pyval) (AttributeNames : list string)
| SQS_set_queue_attributes (QueueUrl : pyval) (Attributes : pyval)
| S3_put_bucket_notification_configuration
    (Bucket : string) (NotificationConfiguration : pyval)
| IAM_create_user (UserName : string)
| IAM_create_policy (PolicyName : string) (PolicyDocument : pyval)
| IAM_attach_user_policy (UserName : string) (PolicyArn : pyval)
| IAM_create_access_key (UserName : string).

(** ** Output *)

(** A printed line: the pieces of an f-string, or the arguments of [print]. *)
Inductive piece : Type :=
| Lit (s : string)
| Val (v : pyval)
| Exc (e : exn).

Definition line : Type := list piece.

(** What the outside world sees of a run, in order. *)
Inductive event : Type :=
| Called (c : api_call) (answer : exn + pyval)
| Printed (l : line).

Definition trace : Type := list event.

(** The remote calls of a trace, in order. *)
Fixpoint calls_of (t : trace) : list api_call :=
  match t with
  | [] => []
  | Called c _ :: t' => c :: calls_of t'
  | Printed _ :: t' => calls_of t'
  end.

(** The printed lines of a trace, in order. *)
Fixpoint lines_of (t : trace) : list line :=
  match t with
  | [] => []
  | Called _ _ :: t' => lines_of t'
  | Printed l :: t' => l :: lines_of t'
  end.

(** ** Configuration *)

(** The module-level constants of the script ("change these variables as
    needed"). *)
Record config : Type := Config {
  AWS_REGION : string;
  BUCKET_NAME : string;
  QUEUE_NAME : string;
  IAM_USER_NAME : string;
  IAM_POLICY_NAME : string
}.

(** The values the script ships with. *)
Definition shipped_config : config := {|
  AWS_REGION := "us-east-1";
  BUCKET_NAME := "audio-transcriber-ingress-bucket";
  QUEUE_NAME := "audio-transcriber-ingress-queue";
  IAM_USER_NAME := "audio-transcriber-ingress-user";
  IAM_POLICY_NAME := "AudioTranscriberIngressPolicy"
|}.

(** ** The monad of the script *)

(** The outcome of running a computation from a provider state: a value or
    the exception that escaped, the provider's state afterwards, and what
    happened on the way. *)
Record outcome (W A : Type) : Type := Outcome {
  result : exn + A;
  world : W;
  events : trace
}.
Arguments Outcome {W A} _ _ _.
Arguments result {W A} _.
Arguments world {W A} _.
Arguments events {W A} _.

Definition M (W A : Type) : Type := W -> outcome W A.

Definition ret {W A} (a : A) : M W A :=
  fun w => Outcome (inr a) w [].

Definition raise {W A} (e : exn) : M W A :=
  fun w => Outcome (inl e) w [].

Definition bind {W A B} (m : M W A) (f : A -> M W B) : M W B :=
  fun w =>
    match m w with
    | Outcome (inr a) w1 t1 =>
        match f a w1 with
        | Outcome r w2 t2 => Outcome r w2 (t1 ++ t2)
        end
    | Outcome (inl e) w1 t1 => Outcome (inl e) w1 t1
    end.

(** [try: body except Exception as e: handler e]. *)
Definition try_except {W A} (body : M W A) (handler : exn -> M W A) : M W A :=
  fun w =>
    match body w with
    | Outcome (inr a) w1 t1 => Outcome (inr a) w1 t1
    | Outcome (inl e) w1 t1 =>
        match handler e w1 with
        | Outcome r w2 t2 => Outcome r w2 (t1 ++ t2)
        end
    end.

(** Lifting of a pure step that may raise. *)
Definition lift {W A} (r : exn + A) : M W A :=
  match r with
  | inr a => ret a
  | inl e => raise e
  end.

Definition print {W} (l : line) : M W unit :=
  fun w => Outcome (inr tt) w [Printed l].

Declare Scope py_scope.
Delimit Scope py_scope with py.
Notation "x <- m ;; k" := (bind m (fun x => k))
  (at level 61, m at next level, right associativity) : py_scope.
Notation "m ;; k" := (bind m (fun _ => k))
  (at level 61, right associativity) : py_scope.
Local Open Scope py_scope.

(** ** The script *)

Section Script.

(** The provider: its state and its answer to each call.  An answer is a
    response or an exception raised by the client. *)
Variable W : Type.
Variable provider : W -> api_call -> W * (exn + pyval).

(** [json.dumps] on the documents the script builds. *)
Variable json_dumps : pyval -> string.

Variable cfg : config.

(** A client method call. *)
Definition call (c : api_call) : M W pyval :=
  fun w =>
    let (w', a) := provider w c in
    Outcome a w' [Called c a].

(** [a, b = v] where [v] is what [create_sqs_queue] returned: unpacking
    [None] raises [TypeError]. *)
Definition unpack (v : option (pyval * pyval)) : M W (pyval * pyval) :=
  match v with
  | Some p => ret p
  | None => raise (TypeError "cannot unpack non-iterable NoneType object")
  end.

Definition create_s3_bucket : M W unit :=
  try_except
    (print [Lit "Creating S3 bucket: "; Lit (BUCKET_NAME cfg); Lit "..."] ;;
     (if String.eqb (AWS_REGION cfg) "us-east-1"
      then call (S3_create_bucket (BUCKET_NAME cfg) None)
      else call (S3_create_bucket (BUCKET_NAME cfg)
                   (Some (VDict [("LocationConstraint",
                                  VStr (AWS_REGION cfg))])))) ;;
     print [Lit "✅ S3 bucket created!"])
    (fun e => print [Lit "⚠️ Error creating S3 bucket: "; Exc e]).

(** The [try] block of [create_sqs_queue]. *)
Definition create_sqs_queue_try : M W (option (pyval * pyval)) :=
  print [Lit "Creating SQS queue: "; Lit (QUEUE_NAME cfg); Lit "..."] ;;
  response <-
    call (SQS_create_queue (QUEUE_NAME cfg)
            (VDict [("VisibilityTimeout", VStr "300");
                    ("MessageRetentionPeriod", VStr "1209600")])) ;;
  queue_url <- lift (subscript response "QueueUrl") ;;
  queue_attributes <-
    call (SQS_get_queue_attributes queue_url ["QueueArn"]) ;;
  attributes <- lift (subscript queue_attributes "Attributes") ;;
  queue_arn <- lift (subscript attributes "QueueArn") ;;
  print [Lit "✅ SQS queue created! ARN: "; Val queue_arn] ;;
  ret (Some (queue_url, queue_arn)).

(** The [except] clause has no [return]: the function then returns
    [None]. *)
Definition create_sqs_queue : M W (option (pyval * pyval)) :=
  try_except create_sqs_queue_try
    (fun e =>
       print [Lit "⚠️ Error creating SQS queue: "; Exc e] ;;
       ret None).

(** The document built by [attach_sqs_policy]. *)
Definition sqs_policy (queue_arn : pyval) : pyval :=
  VDict
    [("Version", VStr "2012-10-17");
     ("Statement",
      VList
        [VDict
           [("Effect", VStr "Allow");
            ("Principal", VDict [("Service", VStr "s3.amazonaws.com")]);
            ("Action", VStr "sqs:SendMessage");
            ("Resource", queue_arn);
            ("Condition",
             VDict
               [("ArnLike",
                 VDict [("aws:SourceArn",
                         VStr ("arn:aws:s3:::" ++ BUCKET_NAME cfg))])])]])].

Definition attach_sqs_policy (queue_arn : pyval) : M W unit :=
  print [Lit "🔹 Setting SQS policy to allow S3 events..."] ;;
  p <- (r <- create_sqs_queue ;; unpack r) ;;
  let queue_url := fst p in
  call (SQS_set_queue_attributes queue_url
          (VDict [("Policy", VStr (json_dumps (sqs_policy queue_arn)))])) ;;
  print [Lit "✅ SQS policy set!"].

(** The configuration built by [configure_s3_notifications]. *)
Definition s3_notification_config (queue_arn : pyval) : pyval :=
  VDict
    [("QueueConfigurations",
      VList
        [VDict [("QueueArn", queue_arn);
                ("Events", VList [VStr "s3:ObjectCreated:*"])]])].

Definition configure_s3_notifications (queue_arn : pyval) : M W unit :=
  print [Lit "🔹 Configuring S3 event notifications..."] ;;
  call (S3_put_bucket_notification_configuration (BUCKET_NAME cfg)
          (s3_notification_config queue_arn)) ;;
  print [Lit "✅ S3 event notifications configured!"].

(** The document built by [create_iam_user].  It does not mention the
    function's argument. *)
Definition policy_document : pyval :=
  VDict
    [("Version", VStr "2012-10-17");
     ("Statement",
      VList
        [VDict
           [("Effect", VStr "Allow");
            ("Action", VList [VStr "s3:PutObject"; VStr "s3:GetObject"]);
            ("Resource",
             VList [VStr ("arn:aws:s3:::" ++ BUCKET_NAME cfg ++ "/*")])];
         VDict
           [("Effect", VStr "Allow");
            ("Action",
             VList [VStr "sqs:ReceiveMessage"; VStr "sqs:DeleteMessage";
                    VStr "sqs:GetQueueAttributes"]);
            ("Resource",
             VStr ("arn:aws:sqs:" ++ AWS_REGION cfg ++ ":*: "
                     ++ QUEUE_NAME cfg))]])].

Definition create_iam_user (queue_arn : pyval) : M W unit :=
  try_except
    (print [Lit "Creating IAM user: "; Lit (IAM_USER_NAME cfg); Lit "..."] ;;
     call (IAM_create_user (IAM_USER_NAME cfg)) ;;
     print [Lit "Creating IAM policy: "; Lit (IAM_POLICY_NAME cfg);
            Lit "..."] ;;
     policy_response <-
       call (IAM_create_policy (IAM_POLICY_NAME cfg)
               (VStr (json_dumps policy_document))) ;;
     policy <- lift (subscript policy_response "Policy") ;;
     policy_arn <- lift (subscript policy "Arn") ;;
     print [Lit "Attaching policy to user..."] ;;
     call (IAM_attach_user_policy (IAM_USER_NAME cfg) policy_arn) ;;
     print [Lit "Creating access key for user..."] ;;
     access_key <- call (IAM_create_access_key (IAM_USER_NAME cfg)) ;;
     print [Lit "✅ IAM user and policy created successfully!"] ;;
     key <- lift (subscript access_key "AccessKey") ;;
     key_id <- lift (subscript key "AccessKeyId") ;;
     print [Lit "🔑 Access Key ID:"; Lit " "; Val key_id] ;;
     key' <- lift (subscript access_key "AccessKey") ;;
     secret <- lift (subscript key' "SecretAccessKey") ;;
     print [Lit "🔑 Secret Access Key:"; Lit " "; Val secret])
    (fun e => print [Lit "⚠️ Error creating IAM user: "; Exc e]).

Definition main : M W unit :=
  create_s3_bucket ;;
  p <- (r <- create_sqs_queue ;; unpack r) ;;
  let queue_arn := snd p in
  attach_sqs_policy queue_arn ;;
  configure_s3_notifications queue_arn ;;
  create_iam_user queue_arn ;;
  print [Lit "🚀 AWS setup complete!"].

(** The access binder with the queue's address passed in: the refactoring
    in which the handle of the queue step is threaded through instead of
    being obtained by a second "ensure queue exists". *)
Definition attach_sqs_policy_threaded (queue_url queue_arn : pyval)
  : M W unit :=
  print [Lit "🔹 Setting SQS policy to allow S3 events..."] ;;
  call (SQS_set_queue_attributes queue_url
          (VDict [("Policy", VStr (json_dumps (sqs_policy queue_arn)))])) ;;
  print [Lit "✅ SQS policy set!"].

(** [main] with the threaded access binder. *)
Definition main_threaded : M W unit :=
  create_s3_bucket ;;
  p <- (r <- create_sqs_queue ;; unpack r) ;;
  let queue_url := fst p in
  let queue_arn := snd p in
  attach_sqs_policy_threaded queue_url queue_arn ;;
  configure_s3_notifications queue_arn ;;
  create_iam_user queue_arn ;;
  print [Lit "🚀 AWS setup complete!"].

(** The request of the storage step. *)
Definition bucket_request : api_call :=
  if String.eqb (AWS_REGION cfg) "us-east-1"
  then S3_create_bucket (BUCKET_NAME cfg) None
  else S3_create_bucket (BUCKET_NAME cfg)
         (Some (VDict [("LocationConstraint", VStr (AWS_REGION cfg))])).

(** The request of the queue step. *)
Definition queue_request : api_call :=
  SQS_create_queue (QUEUE_NAME cfg)
    (VDict [("VisibilityTimeout", VStr "300");
            ("MessageRetentionPeriod", VStr "1209600")]).

(** The whole queue step can be repeated at [w]: when the step has
    returned a queue from [w], running it again (the creation request and
    the lookup of the identifier) returns the same address and leaves the
    provider's state as it was.  This asks more of a provider than
    idempotent creation: the repeated lookup has to succeed as well. *)
Definition queue_step_repeats (w : W) : Prop :=
  forall url arn,
    result (create_sqs_queue w) = inr (Some (url, arn)) ->
    let w' := world (create_sqs_queue w) in
    world (create_sqs_queue w') = w' /\
    exists arn',
      result (create_sqs_queue w') = inr (Some (url, arn')).

(** The states a provider reaches from [w] by lookups of queue attributes
    alone. *)
Inductive lookups_only : W -> W -> Prop :=
| lookups_none (w : W) : lookups_only w w
| lookups_step (w : W) (url : pyval) (names : list string) (w' : W) :
    lookups_only (fst (provider w (SQS_get_queue_attributes url names))) w' ->
    lookups_only w w'.

(** The provider's queue creation is idempotent for an existing name: once
    a creation has succeeded, a creation with the same name and attributes,
    there or after any lookups, returns the address of the existing queue
    and changes nothing. *)
Definition create_queue_idempotent : Prop :=
  forall w name attrs w1 response,
    provider w (SQS_create_queue name attrs) = (w1, inr response) ->
    forall w',
      lookups_only w1 w' ->
      exists response',
        provider w' (SQS_create_queue name attrs) = (w', inr response') /\
        subscript response' "QueueUrl" = subscript response "QueueUrl".

(** A lookup of queue attributes changes nothing at the provider. *)
Definition lookup_read_only : Prop :=
  forall w url names,
    fst (provider w (SQS_get_queue_attributes url names)) = w.

End Script.

Arguments call {W} provider c w.
Arguments unpack {W} v w.
Arguments create_s3_bucket {W} provider cfg w.
Arguments create_sqs_queue_try {W} provider cfg w.
Arguments create_sqs_queue {W} provider cfg w.
Arguments attach_sqs_policy {W} provider json_dumps cfg queue_arn w.
Arguments configure_s3_notifications {W} provider cfg queue_arn w.
Arguments create_iam_user {W} provider json_dumps cfg queue_arn w.
Arguments main {W} provider json_dumps cfg w.
Arguments attach_sqs_policy_threaded {W} provider json_dumps cfg
  queue_url queue_arn w.
Arguments main_threaded {W} provider json_dumps cfg w.
Arguments queue_step_repeats {W} provider cfg w.
Arguments lookups_only {W} provider _ _.
Arguments lookups_none {W} provider w.
Arguments lookups_step {W} provider w url names w' _.
Arguments create_queue_idempotent {W} provider.
Arguments lookup_read_only {W} provider.

(** ** Kinds of calls *)

Definition is_create_queue (c : api_call) : bool :=
  match c with
  | SQS_create_queue _ _ => true
  | _ => false
  end.

(** The calls of the first two steps. *)
Definition upstream_call (c : api_call) : bool :=
  match c with
  | S3_create_bucket _ _ => true
  | SQS_create_queue _ _ => true
  | SQS_get_queue_attributes _ _ => true
  | _ => false
  end.

Definition ensure_queue_call (c : api_call) : bool :=
  match c with
  | SQS_create_queue _ _ => true
  | SQS_get_queue_attributes _ _ => true
  | _ => false
  end.

Definition is_set_queue_attributes (c : api_call) : bool :=
  match c with
  | SQS_set_queue_attributes _ _ => true
  | _ => false
  end.

Definition is_put_notification (c : api_call) : bool :=
  match c with
  | S3_put_bucket_notification_configuration _ _ => true
  | _ => false
  end.

(** The identifier of the queue [name] of [account] in [region]. *)
Definition queue_arn_of (region account name : string) : string :=
  "arn:aws:sqs:" ++ region ++ ":" ++ account ++ ":" ++ name.

(** ** A reference provider *)

(** [SimAWS] is a small executable stand-in for the three services, used to
    run the script on concrete inputs.  It is not part of the script: the
    general theorems below quantify over every provider. *)
Module SimAWS.

Fixpoint pyval_eqb (a b : pyval) : bool :=
  match a, b with
  | VStr s, VStr t => String.eqb s t
  | VList l, VList m =>
      (fix all2 (l m : list pyval) : bool :=
         match l, m with
         | [], [] => true
         | x :: l', y :: m' => pyval_eqb x y && all2 l' m'
         | _, _ => false
         end) l m
  | VDict d, VDict e =>
      (fix all2 (d e : list (string * pyval)) : bool :=
         match d, e with
         | [], [] => true
         | (k, x) :: d', (k', y) :: e' =>
             String.eqb k k' && pyval_eqb x y && all2 d' e'
         | _, _ => false
         end) d e
  | _, _ => false
  end.

Record bucket : Type := Bucket {
  b_name : string;
  b_notification : option pyval
}.

Record queue : Type := Queue {
  q_name : string;
  q_attributes : pyval;
  q_policy : option pyval
}.

Record aws : Type := Aws {
  buckets : list bucket;
  queues : list queue;
  users : list string;
  policies : list (string * pyval);
  attachments : list (string * pyval);
  access_keys : list (string * string)
}.

Definition empty : aws := Aws [] [] [] [] [] [].

Definition account : string := "123456789012".

Section Region.

(** The region the clients were created for. *)
Variable region : string.

Definition queue_url (name : string) : string :=
  "https://sqs." ++ region ++ ".amazonaws.com/" ++ account ++ "/" ++ name.

Definition queue_arn (name : string) : string :=
  queue_arn_of region account name.

Definition policy_arn (name : string) : string :=
  "arn:aws:iam::" ++ account ++ ":policy/" ++ name.

Definition find_bucket (n : string) (w : aws) : option bucket :=
  find (fun b => String.eqb (b_name b) n) (buckets w).

Definition find_queue (n : string) (w : aws) : option queue :=
  find (fun q => String.eqb (q_name q) n) (queues w).

Definition at_url (url : pyval) (q : queue) : bool :=
  match url with
  | VStr u => String.eqb (queue_url (q_name q)) u
  | _ => false
  end.

Definition find_queue_at (url : pyval) (w : aws) : option queue :=
  find (at_url url) (queues w).

(** [SetQueueAttributes]: the policy, when given, replaces the one the
    queue had. *)
Definition with_attributes (attrs : pyval) (q : queue) : queue :=
  match attrs with
  | VDict d =>
      match assoc "Policy" d with
      | Some p => Queue (q_name q) (q_attributes q) (Some p)
      | None => q
      end
  | _ => q
  end.

Definition has_user (u : string) (w : aws) : bool :=
  existsb (String.eqb u) (users w).

Definition set_buckets (l : list bucket) (w : aws) : aws :=
  Aws l (queues w) (users w) (policies w) (attachments w) (access_keys w).

Definition set_queues (l : list queue) (w : aws) : aws :=
  Aws (buckets w) l (users w) (policies w) (attachments w) (access_keys w).

Definition key_id (n : nat) : string :=
  "AKIAEXAMPLE" ++ String.concat EmptyString (repeat "0" n).

Definition provider (w : aws) (c : api_call) : aws * (exn + pyval) :=
  match c with
  | S3_create_bucket n _ =>
      match find_bucket n w with
      | Some _ =>
          (w, inl (ClientError "BucketAlreadyOwnedByYou"
                     "Your previous request to create the named bucket succeeded and you already own it."))
      | None =>
          (set_buckets (buckets w ++ [Bucket n None]) w,
           inr (VDict [("Location", VStr ("/" ++ n))]))
      end
  | SQS_create_queue n attrs =>
      match find_queue n w with
      | Some q =>
          if pyval_eqb (q_attributes q) attrs
          then (w, inr (VDict [("QueueUrl", VStr (queue_url n))]))
          else (w, inl (ClientError "QueueAlreadyExists"
                          "A queue already exists with the same name and a different value for an attribute."))
      | None =>
          (set_queues (queues w ++ [Queue n attrs None]) w,
           inr (VDict [("QueueUrl", VStr (queue_url n))]))
      end
  | SQS_get_queue_attributes url names =>
      match find_queue_at url w with
      | Some q =>
          if existsb (String.eqb "QueueArn") names
          then (w, inr (VDict [("Attributes",
                                VDict [("QueueArn",
                                        VStr (queue_arn (q_name q)))])]))
          else (w, inr (VDict []))
      | None =>
          (w, inl (ClientError "AWS.SimpleQueueService.NonExistentQueue"
                     "The specified queue does not exist."))
      end
  | SQS_set_queue_attributes url attrs =>
      match find_queue_at url w with
      | Some _ =>
          (set_queues
             (map (fun q =>
                     if at_url url q then with_attributes attrs q else q)
                (queues w)) w,
           inr (VDict []))
      | None =>
          (w, inl (ClientError "AWS.SimpleQueueService.NonExistentQueue"
                     "The specified queue does not exist."))
      end
  | S3_put_bucket_notification_configuration n conf =>
      match find_bucket n w with
      | Some _ =>
          (set_buckets
             (map (fun b =>
                     if String.eqb (b_name b) n
                     then Bucket (b_name b) (Some conf)
                     else b) (buckets w)) w,
           inr (VDict []))
      | None =>
          (w, inl (ClientError "NoSuchBucket"
                     "The specified bucket does not exist"))
      end
  | IAM_create_user u =>
      if has_user u w
      then (w, inl (ClientError "EntityAlreadyExists"
                      ("User with name " ++ u ++ " already exists.")))
      else (Aws (buckets w) (queues w) (users w ++ [u]) (policies w)
              (attachments w) (access_keys w),
            inr (VDict [("User", VDict [("UserName", VStr u)])]))
  | IAM_create_policy n doc =>
      match find (fun p => String.eqb (fst p) n) (policies w) with
      | Some _ =>
          (w, inl (ClientError "EntityAlreadyExists"
                     ("A policy called " ++ n ++ " already exists.")))
      | None =>
          (Aws (buckets w) (queues w) (users w) (policies w ++ [(n, doc)])
             (attachments w) (access_keys w),
           inr (VDict [("Policy",
                        VDict [("PolicyName", VStr n);
                               ("Arn", VStr (policy_arn n))])]))
      end
  | IAM_attach_user_policy u arn =>
      if has_user u w
      then (Aws (buckets w) (queues w) (users w) (policies w)
              (attachments w ++ [(u, arn)]) (access_keys w),
            inr (VDict []))
      else (w, inl (ClientError "NoSuchEntity"
                      ("The user with name " ++ u ++ " cannot be found.")))
  | IAM_create_access_key u =>
      if has_user u w
      then
        let k := key_id (length (access_keys w)) in
        (Aws (buckets w) (queues w) (users w) (policies w)
           (attachments w) (access_keys w ++ [(u, k)]),
         inr (VDict [("AccessKey",
                      VDict [("UserName", VStr u);
                             ("AccessKeyId", VStr k);
                             ("SecretAccessKey", VStr ("secret/" ++ k))])]))
      else (w, inl (ClientError "NoSuchEntity"
                      ("The user with name " ++ u ++ " cannot be found.")))
  end.

(** What the services report back. *)

Definition observed_attribute (w : aws) (url : pyval) (k : string)
  : option pyval :=
  match find_queue_at url w with
  | Some q =>
      match q_attributes q with
      | VDict d => assoc k d
      | _ => None
      end
  | None => None
  end.

Definition observed_policy (w : aws) (url : pyval) : option pyval :=
  match find_queue_at url w with
  | Some q => q_policy q
  | None => None
  end.

Definition observed_notification (w : aws) (n : string) : option pyval :=
  match find_bucket n w with
  | Some b => b_notification b
  | None => None
  end.

End Region.

(** A provider whose calls selected by [bad] raise [e] and leave the state
    alone. *)
Definition failing (bad : api_call -> bool) (e : exn)
    (p : aws -> api_call -> aws * (exn + pyval))
    (w : aws) (c : api_call) : aws * (exn + pyval) :=
  if bad c then (w, inl e) else p w c.

Definition dquote : string := String (Ascii.ascii_of_nat 34) EmptyString.

(** A rendering of documents as JSON text; it agrees with [json.dumps] on
    documents whose text needs no escape. *)
Fixpoint json_text (v : pyval) : string :=
  match v with
  | VStr s => dquote ++ s ++ dquote
  | VList l =>
      "[" ++
      (fix items (l : list pyval) : string :=
         match l with
         | [] => EmptyString
         | x :: l' =>
             json_text x ++
             match l' with [] => EmptyString | _ => ", " ++ items l' end
         end) l ++ "]"
  | VDict d =>
      "{" ++
      (fix items (d : list (string * pyval)) : string :=
         match d with
         | [] => EmptyString
         | (k, x) :: d' =>
             dquote ++ k ++ dquote ++ ": " ++ json_text x ++
             match d' with [] => EmptyString | _ => ", " ++ items d' end
         end) d ++ "}"
  end%string.

End SimAWS.

(** ** Concrete inputs *)

(** The reference provider for the region of the shipped configuration. *)
Definition shipped_provider
  : SimAWS.aws -> api_call -> SimAWS.aws * (exn + pyval) :=
  SimAWS.provider (AWS_REGION shipped_config).

(** Address and identifier of the shipped queue at the reference
    provider. *)
Definition shipped_queue_url : pyval :=
  VStr (SimAWS.queue_url "us-east-1" "audio-transcriber-ingress-queue").

Definition shipped_queue_arn : pyval :=
  VStr "arn:aws:sqs:us-east-1:123456789012:audio-transcriber-ingress-queue".

(** The first run of the script on an empty account. *)
Definition first_run : outcome SimAWS.aws unit :=
  main shipped_provider SimAWS.json_text shipped_config SimAWS.empty.

(** A provider that refuses some calls for lack of permission. *)
Definition denying (bad : api_call -> bool)
  : SimAWS.aws -> api_call -> SimAWS.aws * (exn + pyval) :=
  SimAWS.failing bad
    (ClientError "AccessDenied" "Access to the resource is denied.")
    shipped_provider.

(** A configuration for another region. *)
Definition ireland_config : config := {|
  AWS_REGION := "eu-west-1";
  BUCKET_NAME := "audio-transcriber-ingress-bucket";
  QUEUE_NAME := "audio-transcriber-ingress-queue";
  IAM_USER_NAME := "audio-transcriber-ingress-user";
  IAM_POLICY_NAME := "AudioTranscriberIngressPolicy"
|}.

(** An account whose queue already carries a policy. *)
Definition account_with_policy : SimAWS.aws :=
  SimAWS.set_queues
    [SimAWS.Queue "audio-transcriber-ingress-queue"
       (VDict [("VisibilityTimeout", VStr "300");
               ("MessageRetentionPeriod", VStr "1209600")])
       (Some (VStr "an earlier policy"))]
    SimAWS.empty.

Definition other_queue_arn : pyval :=
  VStr "arn:aws:sqs:us-east-1:123456789012:another-queue".

(** The second run of the script, on the account the first run left. *)
Definition second_run : outcome SimAWS.aws unit :=
  main shipped_provider SimAWS.json_text shipped_config (world first_run).

(** The identity step of a second run. *)
Definition identity_again : outcome SimAWS.aws unit :=
  create_iam_user shipped_provider SimAWS.json_text shipped_config
    shipped_queue_arn (world first_run).

Definition name_taken : exn :=
  ClientError "EntityAlreadyExists"
    "User with name audio-transcriber-ingress-user already exists.".

(** The account after the queue step alone. *)
Definition queue_created : SimAWS.aws :=
  world (create_sqs_queue shipped_provider shipped_config SimAWS.empty).

(** Event wiring applied once, then again with another queue. *)
Definition wired_once : outcome SimAWS.aws unit :=
  configure_s3_notifications shipped_provider shipped_config
    shipped_queue_arn
    (world (create_s3_bucket shipped_provider shipped_config SimAWS.empty)).

Definition wired_twice : outcome SimAWS.aws unit :=
  configure_s3_notifications shipped_provider shipped_config
    other_queue_arn (world wired_once).

(** A provider that answers some calls with a fixed response and leaves the
    state alone. *)
Definition replying (sel : api_call -> bool) (v : pyval)
    (p : SimAWS.aws -> api_call -> SimAWS.aws * (exn + pyval))
    (w : SimAWS.aws) (c : api_call) : SimAWS.aws * (exn + pyval) :=
  if sel c then (w, inr v) else p w c.

(** The line [main] prints last. *)
Definition completion_line : event :=
  Printed [Lit "🚀 AWS setup complete!"].

(** A provider that answers one lookup of queue attributes and refuses
    every later one; its state counts the lookups made.  Everything else
    is left to [p]. *)
Definition throttling
    (p : SimAWS.aws -> api_call -> SimAWS.aws * (exn + pyval))
    (w : SimAWS.aws * nat) (c : api_call)
  : (SimAWS.aws * nat) * (exn + pyval) :=
  match c with
  | SQS_get_queue_attributes _ _ =>
      match snd w with
      | O => ((fst (p (fst w) c), 1), snd (p (fst w) c))
      | S n =>
          ((fst w, S (S n)),
           inl (ClientError "ThrottlingException" "Rate exceeded"))
      end
  | _ => ((fst (p (fst w) c), snd w), snd (p (fst w) c))
  end.

Definition throttled_provider
  : (SimAWS.aws * nat) -> api_call -> (SimAWS.aws * nat) * (exn + pyval) :=
  throttling shipped_provider.

(** The calls a trace holds after its first refused call. *)
Fixpoint after_refusal (t : trace) : list api_call :=
  match t with
  | [] => []
  | Called _ (inl _) :: t' => calls_of t'
  | _ :: t' => after_refusal t'
  end.

(** ** Reasoning about computations *)

Section Monad.

Context {W A B : Type}.

Lemma bind_raises (m : M W A) (f : A -> M W B) (w : W) (e : exn) :
  result (m w) = inl e ->
  bind m f w = Outcome (inl e) (world (m w)) (events (m w)).
Proof.
  unfold bind. destruct (m w) as [[e'|a] w1 t1]; cbn; intros H;
    inversion H; reflexivity.
Qed.

Lemma bind_returns (m : M W A) (f : A -> M W B) (w : W) (a : A) :
  result (m w) = inr a ->
  bind m f w =
    Outcome (result (f a (world (m w)))) (world (f a (world (m w))))
      (events (m w) ++ events (f a (world (m w)))).
Proof.
  unfold bind. destruct (m w) as [[e'|a'] w1 t1]; cbn; intros H;
    inversion H; subst. destruct (f a w1); reflexivity.
Qed.

Lemma try_except_returns (m : M W A) (h : exn -> M W A) (w : W) (a : A) :
  result (m w) = inr a -> try_except m h w = m w.
Proof.
  unfold try_except. destruct (m w) as [[e'|a'] w1 t1]; cbn; intros H;
    inversion H; reflexivity.
Qed.

Lemma try_except_raises (m : M W A) (h : exn -> M W A) (w : W) (e : exn) :
  result (m w) = inl e ->
  try_except m h w =
    Outcome (result (h e (world (m w)))) (world (h e (world (m w))))
      (events (m w) ++ events (h e (world (m w)))).
Proof.
  unfold try_except. destruct (m w) as [[e'|a'] w1 t1]; cbn; intros H;
    inversion H; subst. destruct (h e w1); reflexivity.
Qed.

Lemma bind_after (m : M W A) (f : A -> M W B) (w w' : W) (a : A)
    (t : trace) :
  m w = Outcome (inr a) w' t ->
  bind m f w =
    Outcome (result (f a w')) (world (f a w')) (t ++ events (f a w')).
Proof.
  intros H. unfold bind. rewrite H. destruct (f a w'); reflexivity.
Qed.

Lemma bind_stops (m : M W A) (f : A -> M W B) (w w' : W) (e : exn)
    (t : trace) :
  m w = Outcome (inl e) w' t ->
  bind m f w = Outcome (inl e) w' t.
Proof. intros H. unfold bind. rewrite H. reflexivity. Qed.

End Monad.

Lemma calls_of_app (t u : trace) :
  calls_of (t ++ u) = calls_of t ++ calls_of u.
Proof.
  induction t as [|[c a|l] t IH]; simpl;
    [reflexivity | f_equal; exact IH | exact IH].
Qed.

Lemma lines_of_app (t u : trace) :
  lines_of (t ++ u) = lines_of t ++ lines_of u.
Proof.
  induction t as [|[c a|l] t IH]; simpl;
    [reflexivity | exact IH | f_equal; exact IH].
Qed.

(** Unfolding of the script's functions down to the provider's answers. *)
Ltac run_script :=
  unfold main, create_iam_user, configure_s3_notifications,
    attach_sqs_policy, create_sqs_queue, create_sqs_queue_try,
    create_s3_bucket, unpack, try_except, bind, print, call, lift, ret,
    raise;
  cbn.

(** Case analysis on the next answer of the provider, or on the next
    subscript. *)
Ltac answer provider :=
  match goal with
  | |- context [provider ?w ?c] =>
      let w' := fresh "w" in
      let E := fresh "P" in
      destruct (provider w c) as [w' [?e|?v]] eqn:E; cbn
  | |- context [subscript ?v ?k] =>
      let E := fresh "S" in
      destruct (subscript v k) as [?e|?x] eqn:E; cbn
  end.

(** ** The steps, one by one *)

Section Steps.

Variable W : Type.
Variable provider : W -> api_call -> W * (exn + pyval).
Variable json_dumps : pyval -> string.
Variable cfg : config.

(** The storage step makes its one request and returns, whatever the
    provider answers. *)
Lemma create_s3_bucket_run (w : W) :
  result (create_s3_bucket provider cfg w) = inr tt /\
  world (create_s3_bucket provider cfg w) =
    fst (provider w (bucket_request cfg)) /\
  calls_of (events (create_s3_bucket provider cfg w)) = [bucket_request cfg].
Proof.
  unfold create_s3_bucket, bucket_request, try_except, bind, print, call.
  destruct (String.eqb (AWS_REGION cfg) "us-east-1"); simpl;
    match goal with
    | |- context [provider w ?c] => destruct (provider w c) as [w' [e|v]]
    end; simpl; auto.
Qed.

(** The queue step never lets an exception escape. *)
Lemma create_sqs_queue_returns (w : W) :
  exists r, result (create_sqs_queue provider cfg w) = inr r.
Proof.
  run_script. repeat (answer provider); eauto.
Qed.

(** The queue step returns a pair exactly when its [try] block runs to
    its end, and [None] exactly when an exception was raised inside. *)
Lemma create_sqs_queue_result (w : W) :
  match result (create_sqs_queue_try provider cfg w) with
  | inr r =>
      create_sqs_queue provider cfg w = create_sqs_queue_try provider cfg w /\
      exists url arn, r = Some (url, arn)
  | inl e =>
      result (create_sqs_queue provider cfg w) = inr None /\
      world (create_sqs_queue provider cfg w) =
        world (create_sqs_queue_try provider cfg w) /\
      events (create_sqs_queue provider cfg w) =
        events (create_sqs_queue_try provider cfg w) ++
        [Printed [Lit "⚠️ Error creating SQS queue: "; Exc e]]
  end.
Proof.
  destruct (result (create_sqs_queue_try provider cfg w)) as [e|r] eqn:R.
  - unfold create_sqs_queue. rewrite (try_except_raises _ _ _ _ R).
    cbn. auto.
  - unfold create_sqs_queue. rewrite (try_except_returns _ _ _ _ R).
    split; [reflexivity|].
    revert R. run_script.
    repeat (answer provider); intros R; inversion R; eauto.
Qed.

(** The calls of the queue step: the creation request, then at most one
    lookup of the identifier. *)
Lemma create_sqs_queue_calls (w : W) :
  calls_of (events (create_sqs_queue provider cfg w)) = [queue_request cfg] \/
  exists url,
    calls_of (events (create_sqs_queue provider cfg w)) =
      [queue_request cfg; SQS_get_queue_attributes url ["QueueArn"]].
Proof.
  run_script. unfold queue_request. repeat (answer provider); cbn; eauto.
Qed.

(** What a successful queue step did: the creation request was answered
    with an address, and the lookup at that address with an identifier. *)
Lemma create_sqs_queue_success (w : W) (url arn : pyval) :
  result (create_sqs_queue provider cfg w) = inr (Some (url, arn)) ->
  exists w1 response w2 queue_attributes attributes,
    provider w (queue_request cfg) = (w1, inr response) /\
    subscript response "QueueUrl" = inr url /\
    provider w1 (SQS_get_queue_attributes url ["QueueArn"]) =
      (w2, inr queue_attributes) /\
    subscript queue_attributes "Attributes" = inr attributes /\
    subscript attributes "QueueArn" = inr arn /\
    world (create_sqs_queue provider cfg w) = w2 /\
    events (create_sqs_queue provider cfg w) =
      [Printed [Lit "Creating SQS queue: "; Lit (QUEUE_NAME cfg); Lit "..."];
       Called (queue_request cfg) (inr response);
       Called (SQS_get_queue_attributes url ["QueueArn"])
         (inr queue_attributes);
       Printed [Lit "✅ SQS queue created! ARN: "; Val arn]].
Proof.
  unfold queue_request. run_script.
  repeat (answer provider); intros R; inversion R; subst.
  do 5 eexists. repeat split; eauto.
Qed.

(** C4.  For every configured region, the storage step issues exactly one
    bucket-creation call: without any location constraint when the region
    is [us-east-1], and with the location constraint set to the region for
    every other region. *)
Theorem create_s3_bucket_location_constraint (w : W) :
  (AWS_REGION cfg = "us-east-1" ->
   calls_of (events (create_s3_bucket provider cfg w)) =
     [S3_create_bucket (BUCKET_NAME cfg) None]) /\
  (AWS_REGION cfg <> "us-east-1" ->
   calls_of (events (create_s3_bucket provider cfg w)) =
     [S3_create_bucket (BUCKET_NAME cfg)
        (Some (VDict [("LocationConstraint", VStr (AWS_REGION cfg))]))]).
Proof.
  destruct (create_s3_bucket_run w) as (_ & _ & C). rewrite C.
  unfold bucket_request.
  destruct (String.eqb_spec (AWS_REGION cfg) "us-east-1") as [E|E];
    split; intros H; congruence.
Qed.

Section QueueAttributes.

(** What the provider reports for an attribute of the queue at an
    address. *)
Variable observed_attribute : W -> pyval -> string -> option pyval.

(** A creation that succeeds yields a queue with the attributes of the
    request. *)
Hypothesis create_queue_stores :
  forall w name attrs w' response url k v,
    provider w (SQS_create_queue name (VDict attrs)) = (w', inr response) ->
    subscript response "QueueUrl" = inr url ->
    assoc k attrs = Some v ->
    observed_attribute w' url k = Some v.

(** Reading a queue's attributes changes none of them. *)
Hypothesis get_queue_attributes_reads :
  forall w url names u k,
    observed_attribute
      (fst (provider w (SQS_get_queue_attributes url names))) u k =
    observed_attribute w u k.

(** C5.  Every run of the queue step makes exactly one creation
    request, and that request carries exactly the two attributes
    VisibilityTimeout = 300 and MessageRetentionPeriod = 1209600; when
    the step returns a queue, the provider reports these two values for
    it. *)
Theorem create_sqs_queue_attributes (w : W) :
  (exists rest,
     calls_of (events (create_sqs_queue provider cfg w)) =
       SQS_create_queue (QUEUE_NAME cfg)
         (VDict [("VisibilityTimeout", VStr "300");
                 ("MessageRetentionPeriod", VStr "1209600")]) :: rest /\
     existsb is_create_queue rest = false) /\
  (forall url arn,
     result (create_sqs_queue provider cfg w) = inr (Some (url, arn)) ->
     observed_attribute (world (create_sqs_queue provider cfg w)) url
       "VisibilityTimeout" = Some (VStr "300") /\
     observed_attribute (world (create_sqs_queue provider cfg w)) url
       "MessageRetentionPeriod" = Some (VStr "1209600")).
Proof.
  split.
  - destruct (create_sqs_queue_calls w) as [C|[url C]]; rewrite C;
      unfold queue_request; eexists; split; reflexivity.
  - intros url arn R.
    destruct (create_sqs_queue_success w url arn R)
      as (w1 & resp & w2 & qa & attrs & P1 & S1 & P2 & _ & _ & Ww & _).
    rewrite Ww.
    assert (E : w2 = fst (provider w1 (SQS_get_queue_attributes url ["QueueArn"])))
      by (rewrite P2; reflexivity).
    rewrite E, !get_queue_attributes_reads.
    unfold queue_request in P1.
    split; eapply create_queue_stores; eauto.
Qed.

End QueueAttributes.

Section QueuePolicy.

(** The access policy the provider holds for the queue at an address. *)
Variable observed_policy : W -> pyval -> option pyval.

(** Setting the [Policy] attribute makes it the queue's policy. *)
Hypothesis set_queue_attributes_overwrites :
  forall w url attrs w' response p,
    provider w (SQS_set_queue_attributes url (VDict attrs)) =
      (w', inr response) ->
    assoc "Policy" attrs = Some p ->
    observed_policy w' url = Some p.

(** C6.  For every queue identifier [q] and configured bucket name, the
    document of the access binder has exactly one statement: effect
    Allow, principal the storage service, action send-message, resource
    [q], and a condition on the source equal to the bucket's full
    resource name (present, and not a wildcard).  When the binder's own
    queue step returns an address, the binder's remaining call sets the
    [Policy] attribute at that address to this whole document, without
    reading any earlier policy; when the binder returns, the document is
    the queue's policy. *)
Theorem attach_sqs_policy_statement (q : pyval) (w : W) :
  (exists statement,
     sqs_policy cfg q =
       VDict [("Version", VStr "2012-10-17");
              ("Statement", VList [statement])] /\
     subscript statement "Effect" = inr (VStr "Allow") /\
     subscript statement "Principal" =
       inr (VDict [("Service", VStr "s3.amazonaws.com")]) /\
     subscript statement "Action" = inr (VStr "sqs:SendMessage") /\
     subscript statement "Resource" = inr q /\
     subscript statement "Condition" =
       inr (VDict [("ArnLike",
                    VDict [("aws:SourceArn",
                            VStr ("arn:aws:s3:::" ++ BUCKET_NAME cfg))])]) /\
     ("arn:aws:s3:::" ++ BUCKET_NAME cfg)%string <> "*") /\
  (forall url arn,
     result (create_sqs_queue provider cfg w) = inr (Some (url, arn)) ->
     calls_of (events (attach_sqs_policy provider json_dumps cfg q w)) =
       calls_of (events (create_sqs_queue provider cfg w)) ++
       [SQS_set_queue_attributes url
          (VDict [("Policy", VStr (json_dumps (sqs_policy cfg q)))])] /\
     (result (attach_sqs_policy provider json_dumps cfg q w) = inr tt ->
      observed_policy
        (world (attach_sqs_policy provider json_dumps cfg q w)) url =
        Some (VStr (json_dumps (sqs_policy cfg q))))) /\
  (result (create_sqs_queue provider cfg w) = inr None ->
   calls_of (events (attach_sqs_policy provider json_dumps cfg q w)) =
     calls_of (events (create_sqs_queue provider cfg w))).
Proof.
  split; [|split].
  - eexists. unfold sqs_policy. split; [reflexivity|].
    cbn. repeat split; discriminate.
  - intros url arn R.
    unfold attach_sqs_policy, unpack, bind, print, call, ret, raise.
    destruct (create_sqs_queue provider cfg w) as [r w1 t1].
    cbn in R. subst r. cbn.
    destruct (provider w1 _) as [w2 [e|v]] eqn:P; cbn.
    + rewrite !calls_of_app. cbn. rewrite app_nil_r.
      split; [reflexivity | discriminate].
    + rewrite !calls_of_app. cbn. rewrite app_nil_r.
      split; [reflexivity | intros _].
      eapply set_queue_attributes_overwrites; [exact P | reflexivity].
  - intros R.
    unfold attach_sqs_policy, unpack, bind, print, call, ret, raise.
    destruct (create_sqs_queue provider cfg w) as [r w1 t1].
    cbn in R. subst r. cbn. rewrite app_nil_r. reflexivity.
Qed.

End QueuePolicy.

Section Notification.

(** The notification configuration the provider holds for a bucket. *)
Variable observed_notification : W -> string -> option pyval.

(** Putting a configuration makes it the bucket's configuration. *)
Hypothesis put_bucket_notification_configuration_replaces :
  forall w bucket conf w' response,
    provider w (S3_put_bucket_notification_configuration bucket conf) =
      (w', inr response) ->
    observed_notification w' bucket = Some conf.

(** C7.  For every queue identifier [q], event wiring makes one call,
    which puts on the configured bucket a configuration holding exactly
    one queue mapping, with destination [q] and the events
    [s3:ObjectCreated:*]; when it returns, that is the bucket's
    configuration.  A second application with another identifier leaves
    the bucket with the one mapping of the second identifier. *)
Theorem configure_s3_notifications_replaces (q1 q2 : pyval) (w : W) :
  let first := configure_s3_notifications provider cfg q1 w in
  let second := configure_s3_notifications provider cfg q2 (world first) in
  (forall q, exists mapping,
     s3_notification_config q =
       VDict [("QueueConfigurations", VList [mapping])] /\
     subscript mapping "QueueArn" = inr q /\
     subscript mapping "Events" = inr (VList [VStr "s3:ObjectCreated:*"])) /\
  calls_of (events first) =
    [S3_put_bucket_notification_configuration (BUCKET_NAME cfg)
       (s3_notification_config q1)] /\
  calls_of (events second) =
    [S3_put_bucket_notification_configuration (BUCKET_NAME cfg)
       (s3_notification_config q2)] /\
  (result first = inr tt ->
   observed_notification (world first) (BUCKET_NAME cfg) =
     Some (s3_notification_config q1)) /\
  (result second = inr tt ->
   observed_notification (world second) (BUCKET_NAME cfg) =
     Some (s3_notification_config q2)).
Proof.
  assert (One : forall q w0,
             calls_of (events (configure_s3_notifications provider cfg q w0)) =
               [S3_put_bucket_notification_configuration (BUCKET_NAME cfg)
                  (s3_notification_config q)] /\
             (result (configure_s3_notifications provider cfg q w0) = inr tt ->
              observed_notification
                (world (configure_s3_notifications provider cfg q w0))
                (BUCKET_NAME cfg) = Some (s3_notification_config q))).
  { intros q w0.
    unfold configure_s3_notifications, bind, print, call.
    destruct (provider w0 _) as [w1 [e|v]] eqn:P; cbn.
    - split; [reflexivity | discriminate].
    - split; [reflexivity | intros _].
      eapply put_bucket_notification_configuration_replaces; exact P. }
  intros first second.
  split; [|split; [|split; [|split]]].
  - intros q. eexists. split; [reflexivity|]. cbn. split; reflexivity.
  - apply One.
  - apply One.
  - apply One.
  - apply One.
Qed.

End Notification.

(** C9.  When the provider refuses the creation of the identity (as it
    does when the name is taken), the identity step logs that error and
    returns, having made no other call: no policy is created or attached
    and no access key is requested. *)
Theorem create_iam_user_name_taken (q : pyval) (w w' : W) (e : exn) :
  provider w (IAM_create_user (IAM_USER_NAME cfg)) = (w', inl e) ->
  result (create_iam_user provider json_dumps cfg q w) = inr tt /\
  world (create_iam_user provider json_dumps cfg q w) = w' /\
  events (create_iam_user provider json_dumps cfg q w) =
    [Printed [Lit "Creating IAM user: "; Lit (IAM_USER_NAME cfg); Lit "..."];
     Called (IAM_create_user (IAM_USER_NAME cfg)) (inl e);
     Printed [Lit "⚠️ Error creating IAM user: "; Exc e]].
Proof.
  intros P. run_script. rewrite P. cbn. auto.
Qed.

(** The identity step never lets an exception escape. *)
Lemma create_iam_user_returns (q : pyval) (w : W) :
  result (create_iam_user provider json_dumps cfg q w) = inr tt.
Proof.
  run_script. repeat (answer provider); reflexivity.
Qed.

(** The access binder has no handler: when the provider refuses to set
    the policy, the exception escapes. *)
Lemma attach_sqs_policy_raises (q url arn : pyval) (w w' : W) (e : exn) :
  result (create_sqs_queue provider cfg w) = inr (Some (url, arn)) ->
  provider (world (create_sqs_queue provider cfg w))
    (SQS_set_queue_attributes url
       (VDict [("Policy", VStr (json_dumps (sqs_policy cfg q)))])) =
    (w', inl e) ->
  result (attach_sqs_policy provider json_dumps cfg q w) = inl e.
Proof.
  intros R P.
  unfold attach_sqs_policy, unpack, bind, print, call, ret, raise.
  destruct (create_sqs_queue provider cfg w) as [r w1 t1].
  cbn in R, P. subst r. cbn. rewrite P. reflexivity.
Qed.

(** Event wiring has no handler either. *)
Lemma configure_s3_notifications_raises (q : pyval) (w w' : W) (e : exn) :
  provider w
    (S3_put_bucket_notification_configuration (BUCKET_NAME cfg)
       (s3_notification_config q)) = (w', inl e) ->
  result (configure_s3_notifications provider cfg q w) = inl e.
Proof.
  intros P. unfold configure_s3_notifications, bind, print, call.
  rewrite P. reflexivity.
Qed.

(** The only policy the identity step ever creates is [policy_document],
    under the configured name. *)
Lemma create_iam_user_policy_call (q : pyval) (w : W) (n : string)
    (d : pyval) :
  In (IAM_create_policy n d)
    (calls_of (events (create_iam_user provider json_dumps cfg q w))) ->
  n = IAM_POLICY_NAME cfg /\ d = VStr (json_dumps (policy_document cfg)).
Proof.
  run_script. repeat (answer provider); cbn;
    intros H;
    repeat match goal with
           | H : _ \/ _ |- _ => destruct H as [H|H]
           | H : False |- _ => destruct H
           | H : _ = IAM_create_policy _ _ |- _ => inversion H; clear H
           end; auto.
Qed.

End Steps.

(** ** The whole run *)

Section Pipeline.

Variable W : Type.
Variable provider : W -> api_call -> W * (exn + pyval).
Variable json_dumps : pyval -> string.
Variable cfg : config.

Lemma create_sqs_queue_upstream (w : W) :
  forallb upstream_call
    (calls_of (events (create_sqs_queue provider cfg w))) = true.
Proof.
  destruct (create_sqs_queue_calls W provider cfg w) as [C|[url C]];
    rewrite C; reflexivity.
Qed.

(** C10.  Whenever an exception is raised inside the queue step of [main],
    whatever the exception and wherever in the step, [create_sqs_queue]
    returns [None]; [main] then raises [TypeError] at the unpacking of
    that result and stops there: the run consists of the storage step and
    the queue step only, and no call of the access binder, of event
    wiring or of the identity step is made. *)
Theorem main_aborts_when_queue_creation_fails (w : W) (e : exn) :
  result (create_sqs_queue_try provider cfg
            (world (create_s3_bucket provider cfg w))) = inl e ->
  result (create_sqs_queue provider cfg
            (world (create_s3_bucket provider cfg w))) = inr None /\
  result (main provider json_dumps cfg w) =
    inl (TypeError "cannot unpack non-iterable NoneType object") /\
  world (main provider json_dumps cfg w) =
    world (create_sqs_queue provider cfg
             (world (create_s3_bucket provider cfg w))) /\
  events (main provider json_dumps cfg w) =
    events (create_s3_bucket provider cfg w) ++
    events (create_sqs_queue provider cfg
              (world (create_s3_bucket provider cfg w))) /\
  forallb upstream_call
    (calls_of (events (main provider json_dumps cfg w))) = true.
Proof.
  set (w1 := world (create_s3_bucket provider cfg w)). intros R.
  pose proof (create_sqs_queue_result W provider cfg w1) as Q.
  rewrite R in Q. destruct Q as (Q & _ & _).
  assert (U : bind (create_sqs_queue provider cfg)
                (fun r => unpack r) w1 =
              Outcome (inl (TypeError "cannot unpack non-iterable NoneType object"))
                (world (create_sqs_queue provider cfg w1))
                (events (create_sqs_queue provider cfg w1))).
  { rewrite (bind_returns _ _ _ _ Q). cbn. rewrite app_nil_r. reflexivity. }
  destruct (create_s3_bucket_run W provider cfg w) as (B & _ & C).
  assert (E : main provider json_dumps cfg w =
              Outcome (inl (TypeError "cannot unpack non-iterable NoneType object"))
                (world (create_sqs_queue provider cfg w1))
                (events (create_s3_bucket provider cfg w) ++
                 events (create_sqs_queue provider cfg w1))).
  { unfold main. rewrite (bind_returns _ _ _ _ B). fold w1.
    erewrite bind_raises by (rewrite U; reflexivity).
    rewrite U. reflexivity. }
  rewrite E. cbn [result world events].
  repeat split; try assumption.
  rewrite calls_of_app, forallb_app, C, create_sqs_queue_upstream.
  unfold bucket_request. destruct (String.eqb _ _); reflexivity.
Qed.

Lemma create_sqs_queue_ensure (w : W) :
  forallb ensure_queue_call
    (calls_of (events (create_sqs_queue provider cfg w))) = true.
Proof.
  destruct (create_sqs_queue_calls W provider cfg w) as [C|[url C]];
    rewrite C; reflexivity.
Qed.

(** Under idempotence, the access binder and its threaded form differ
    only by the events of the repeated queue step. *)
Lemma attach_sqs_policy_redundant (q url arn' : pyval) (w : W) :
  result (create_sqs_queue provider cfg w) = inr (Some (url, arn')) ->
  world (create_sqs_queue provider cfg w) = w ->
  exists r w' post,
    attach_sqs_policy_threaded provider json_dumps cfg url q w =
      Outcome r w'
        (Printed [Lit "🔹 Setting SQS policy to allow S3 events..."] :: post) /\
    attach_sqs_policy provider json_dumps cfg q w =
      Outcome r w'
        (Printed [Lit "🔹 Setting SQS policy to allow S3 events..."] ::
         events (create_sqs_queue provider cfg w) ++ post).
Proof.
  intros R Ww.
  unfold attach_sqs_policy, attach_sqs_policy_threaded, unpack, bind,
    print, call, ret, raise.
  destruct (create_sqs_queue provider cfg w) as [r w1 t1].
  cbn in R, Ww. subst r w1. cbn.
  destruct (provider w _) as [w2 [e|v]]; cbn;
    do 3 eexists; split; try reflexivity; rewrite app_nil_r; reflexivity.
Qed.

(** Idempotence of the queue step follows from two laws of a provider:
    creating again a queue that was just created returns its address and
    changes nothing, and a lookup changes nothing. *)
Lemma queue_step_repeats_of_laws :
  (forall w name attrs w1 response,
     provider w (SQS_create_queue name attrs) = (w1, inr response) ->
     exists response',
       provider w1 (SQS_create_queue name attrs) = (w1, inr response') /\
       subscript response' "QueueUrl" = subscript response "QueueUrl") ->
  (forall w url names,
     fst (provider w (SQS_get_queue_attributes url names)) = w) ->
  forall w, queue_step_repeats provider cfg w.
Proof.
  intros Hc Hl w url arn R.
  destruct (create_sqs_queue_success W provider cfg w url arn R)
    as (w1 & resp & w2 & qa & attrs & P1 & S1 & P2 & S2 & S3 & Ww & _).
  cbv zeta. rewrite Ww.
  assert (E : w2 = w1).
  { rewrite <- (Hl w1 url ["QueueArn"]), P2. reflexivity. }
  rewrite E in *. clear E Ww w2.
  destruct (Hc _ _ _ _ _ P1) as (resp' & P1' & S1').
  unfold queue_request in *. rewrite S1 in S1'.
  run_script. rewrite P1'. cbn. rewrite S1'. cbn. rewrite P2. cbn.
  rewrite S2. cbn. rewrite S3. cbn. eauto.
Qed.

Lemma ensure_queue_calls_set_nothing (l : list api_call) :
  forallb ensure_queue_call l = true ->
  filter is_set_queue_attributes l = [].
Proof.
  induction l as [|c l IH]; cbn; [reflexivity|].
  intros H. apply andb_prop in H. destruct H as [Hc Hl].
  destruct c; cbn in *; try discriminate; auto.
Qed.

(** The access binder runs the queue step a second time.  When that
    whole step can be repeated, [main] and the refactored [main_threaded],
    which passes the first call's address on, end with the same result and
    the same provider state, and the events of [main] are those of
    [main_threaded] with one block inserted that holds only the repeated
    creation and lookup. *)
Lemma main_refines_when_queue_step_repeats (w : W) :
  queue_step_repeats provider cfg
    (world (create_s3_bucket provider cfg w)) ->
  result (main provider json_dumps cfg w) =
    result (main_threaded provider json_dumps cfg w) /\
  world (main provider json_dumps cfg w) =
    world (main_threaded provider json_dumps cfg w) /\
  (exists pre redundant post,
     events (main_threaded provider json_dumps cfg w) = pre ++ post /\
     events (main provider json_dumps cfg w) = pre ++ redundant ++ post /\
     forallb ensure_queue_call (calls_of redundant) = true) /\
  filter is_set_queue_attributes
    (calls_of (events (main provider json_dumps cfg w))) =
  filter is_set_queue_attributes
    (calls_of (events (main_threaded provider json_dumps cfg w))).
Proof.
  intros I.
  assert (Main :
    result (main provider json_dumps cfg w) =
      result (main_threaded provider json_dumps cfg w) /\
    world (main provider json_dumps cfg w) =
      world (main_threaded provider json_dumps cfg w) /\
    exists pre redundant post,
      events (main_threaded provider json_dumps cfg w) = pre ++ post /\
      events (main provider json_dumps cfg w) = pre ++ redundant ++ post /\
      forallb ensure_queue_call (calls_of redundant) = true).
  { destruct (create_s3_bucket_run W provider cfg w) as (B & _ & _).
    unfold main, main_threaded.
    rewrite !(bind_returns _ _ _ _ B).
    set (w1 := world (create_s3_bucket provider cfg w)) in *.
    destruct (create_sqs_queue_returns W provider cfg w1) as [r R].
    destruct r as [[url arn]|].
    - destruct (I url arn R) as (Ww & arn' & R').
      set (w2 := world (create_sqs_queue provider cfg w1)) in *.
      assert (U : bind (create_sqs_queue provider cfg)
                    (fun r => unpack r) w1 =
                  Outcome (inr (url, arn)) w2
                    (events (create_sqs_queue provider cfg w1))).
      { rewrite (bind_returns _ _ _ _ R). cbn. rewrite app_nil_r.
        reflexivity. }
      destruct (attach_sqs_policy_redundant arn url arn' w2 R' Ww)
        as (ra & wa & post & T & A).
      rewrite !(bind_after _ _ _ _ _ _ U). cbn [fst snd].
      destruct ra as [e|[]].
      + rewrite (bind_stops _ _ _ _ _ _ T), (bind_stops _ _ _ _ _ _ A).
        cbn [result world events].
        split; [reflexivity | split; [reflexivity|]].
        exists (events (create_s3_bucket provider cfg w) ++
                events (create_sqs_queue provider cfg w1) ++
                [Printed [Lit "🔹 Setting SQS policy to allow S3 events..."]]),
          (events (create_sqs_queue provider cfg w2)), post.
        split; [|split].
        * rewrite <- ?app_assoc; cbn [app]; rewrite <- ?app_assoc; reflexivity.
        * rewrite <- ?app_assoc; cbn [app]; rewrite <- ?app_assoc; reflexivity.
        * apply create_sqs_queue_ensure.
      + rewrite (bind_after _ _ _ _ _ _ T), (bind_after _ _ _ _ _ _ A).
        cbn [result world events].
        split; [reflexivity | split; [reflexivity|]].
        match goal with
        | |- context [events ?k] =>
            match k with
            | bind _ _ wa =>
                exists (events (create_s3_bucket provider cfg w) ++
                        events (create_sqs_queue provider cfg w1) ++
                        [Printed
                           [Lit "🔹 Setting SQS policy to allow S3 events..."]]),
                  (events (create_sqs_queue provider cfg w2)),
                  (post ++ events k)
            end
        end.
        split; [|split].
        * rewrite <- ?app_assoc; cbn [app]; rewrite <- ?app_assoc; reflexivity.
        * rewrite <- ?app_assoc; cbn [app]; rewrite <- ?app_assoc; reflexivity.
        * apply create_sqs_queue_ensure.
    - assert (U : bind (create_sqs_queue provider cfg)
                    (fun r => unpack r) w1 =
                  Outcome
                    (inl (TypeError "cannot unpack non-iterable NoneType object"))
                    (world (create_sqs_queue provider cfg w1))
                    (events (create_sqs_queue provider cfg w1))).
      { rewrite (bind_returns _ _ _ _ R). cbn. rewrite app_nil_r.
        reflexivity. }
      rewrite !(bind_stops _ _ _ _ _ _ U). cbn [result world events].
      split; [reflexivity | split; [reflexivity|]].
      exists (events (create_s3_bucket provider cfg w) ++
              events (create_sqs_queue provider cfg w1)), [], [].
      rewrite !app_nil_r. auto. }
  destruct Main as (Hr & Hw & pre & red & post & Et & Em & Hred).
  split; [exact Hr | split; [exact Hw | split]].
  - exists pre, red, post. auto.
  - rewrite Et, Em, !calls_of_app, !filter_app.
    rewrite (ensure_queue_calls_set_nothing _ Hred). reflexivity.
Qed.

(** C8.  The access binder runs the queue step a second time.  When the
    provider's queue creation is idempotent for an existing name and, in
    addition, the lookup of queue attributes is read-only, [main] and the
    refactored [main_threaded], which passes the first call's address on,
    end with the same result and the same provider state, and the events
    of [main] are those of [main_threaded] with one block inserted that
    holds only the repeated creation and lookup: in particular the same
    policy is set at the same address. *)
Theorem main_refines_main_threaded (w : W) :
  create_queue_idempotent provider ->
  lookup_read_only provider ->
  result (main provider json_dumps cfg w) =
    result (main_threaded provider json_dumps cfg w) /\
  world (main provider json_dumps cfg w) =
    world (main_threaded provider json_dumps cfg w) /\
  (exists pre redundant post,
     events (main_threaded provider json_dumps cfg w) = pre ++ post /\
     events (main provider json_dumps cfg w) = pre ++ redundant ++ post /\
     forallb ensure_queue_call (calls_of redundant) = true) /\
  filter is_set_queue_attributes
    (calls_of (events (main provider json_dumps cfg w))) =
  filter is_set_queue_attributes
    (calls_of (events (main_threaded provider json_dumps cfg w))).
Proof.
  intros Hc Hl.
  apply main_refines_when_queue_step_repeats.
  apply queue_step_repeats_of_laws; [|exact Hl].
  intros w0 name attrs w1 response P.
  exact (Hc w0 name attrs w1 response P w1 (lookups_none provider w1)).
Qed.

End Pipeline.

(** ** The reference provider obeys the laws assumed of a provider *)

Module SimAWSFacts.

Import SimAWS.

Lemma append_cancel (p a b : string) :
  (p ++ a)%string = (p ++ b)%string -> a = b.
Proof.
  induction p as [|c p IH]; cbn; intros H; [exact H|].
  inversion H. auto.
Qed.

Lemma pyval_eqb_eq : forall a b, pyval_eqb a b = true -> a = b.
Proof.
  fix IH 1. intros [s|l|d] [t|m|e]; cbn; try discriminate.
  - intros H. apply String.eqb_eq in H. congruence.
  - intros H. f_equal. revert m H.
    induction l as [|x l IHl]; intros [|y m]; try discriminate; auto.
    intros H. apply andb_prop in H. destruct H as [H1 H2].
    f_equal; [apply IH; exact H1 | apply IHl; exact H2].
  - intros H. f_equal. revert e H.
    induction d as [|[k x] d IHd]; intros [|[k' y] e]; try discriminate; auto.
    intros H. apply andb_prop in H. destruct H as [H1 H3].
    apply andb_prop in H1. destruct H1 as [H1 H2].
    apply String.eqb_eq in H1. subst k'.
    f_equal; [f_equal; apply IH; exact H2 | apply IHd; exact H3].
Qed.

Lemma pyval_eqb_refl : forall a, pyval_eqb a a = true.
Proof.
  fix IH 1. intros [s|l|d]; cbn.
  - apply String.eqb_refl.
  - induction l as [|x l IHl]; [reflexivity|].
    rewrite IH, IHl. reflexivity.
  - induction d as [|[k x] d IHd]; [reflexivity|].
    rewrite String.eqb_refl, IH, IHd. reflexivity.
Qed.

Section Region.

Variable region : string.

Lemma queue_url_inj (n m : string) :
  queue_url region n = queue_url region m -> n = m.
Proof.
  unfold queue_url. intros H.
  repeat (apply append_cancel in H). exact H.
Qed.

Lemma at_url_name (n : string) (q : queue) :
  at_url region (VStr (queue_url region n)) q = String.eqb (q_name q) n.
Proof.
  unfold at_url. destruct (String.eqb_spec (q_name q) n) as [E|E].
  - subst. apply String.eqb_refl.
  - apply String.eqb_neq. intros H. apply E, queue_url_inj, H.
Qed.

Lemma find_queue_at_name (n : string) (w : aws) :
  find_queue_at region (VStr (queue_url region n)) w = find_queue n w.
Proof.
  unfold find_queue_at, find_queue.
  induction (queues w) as [|q l IH]; [reflexivity|].
  cbn [find]. rewrite at_url_name, IH. reflexivity.
Qed.

Lemma find_app_new {A} (f : A -> bool) (l : list A) (x : A) :
  find f l = None -> f x = true -> find f (l ++ [x]) = Some x.
Proof.
  induction l as [|y l IH]; cbn; intros N T.
  - rewrite T. reflexivity.
  - destruct (f y); [discriminate | auto].
Qed.

(** A creation that succeeds yields a queue with the attributes of the
    request. *)
Lemma sim_create_queue_stores (w : aws) (name : string)
    (attrs : list (string * pyval)) (w' : aws) (response url : pyval)
    (k : string) (v : pyval) :
  provider region w (SQS_create_queue name (VDict attrs)) =
    (w', inr response) ->
  subscript response "QueueUrl" = inr url ->
  assoc k attrs = Some v ->
  observed_attribute region w' url k = Some v.
Proof.
  cbn [provider]. unfold observed_attribute.
  destruct (find_queue name w) as [q|] eqn:F.
  - destruct (pyval_eqb (q_attributes q) (VDict attrs)) eqn:E;
      intros P; inversion P; subst; clear P.
    cbn -[queue_url]. intros U; inversion U; subst; clear U.
    rewrite find_queue_at_name, F.
    apply pyval_eqb_eq in E. rewrite E. auto.
  - intros P; inversion P; subst; clear P.
    cbn -[queue_url]. intros U; inversion U; subst; clear U.
    assert (N : find (at_url region (VStr (queue_url region name)))
                  (queues w) = None)
      by exact (eq_trans (find_queue_at_name name w) F).
    intros A. rewrite (find_app_new _ _ _ N).
    + exact A.
    + rewrite at_url_name. apply String.eqb_refl.
Qed.

(** A lookup changes nothing. *)
Lemma sim_get_queue_attributes_pure (w : aws) (url : pyval)
    (names : list string) :
  fst (provider region w (SQS_get_queue_attributes url names)) = w.
Proof.
  cbn [provider]. destruct (find_queue_at region url w);
    [destruct (existsb _ names)|]; reflexivity.
Qed.

(** Creating a queue that was just created returns it again and changes
    nothing. *)
Lemma sim_create_queue_idempotent (w : aws) (name : string) (attrs : pyval)
    (w' : aws) (response : pyval) :
  provider region w (SQS_create_queue name attrs) = (w', inr response) ->
  provider region w' (SQS_create_queue name attrs) = (w', inr response).
Proof.
  cbn [provider].
  destruct (find_queue name w) as [q|] eqn:F.
  - destruct (pyval_eqb (q_attributes q) attrs) eqn:E;
      intros P; inversion P; subst; clear P.
    rewrite F, E. reflexivity.
  - intros P; inversion P; subst; clear P.
    unfold find_queue, set_queues. cbn.
    rewrite find_app_new; cbn; auto using String.eqb_refl.
    rewrite pyval_eqb_refl. reflexivity.
Qed.

(** Setting the [Policy] attribute makes it the queue's policy. *)
Lemma sim_set_queue_attributes_overwrites (w : aws) (url : pyval)
    (attrs : list (string * pyval)) (w' : aws) (response p : pyval) :
  provider region w (SQS_set_queue_attributes url (VDict attrs)) =
    (w', inr response) ->
  assoc "Policy" attrs = Some p ->
  observed_policy region w' url = Some p.
Proof.
  cbn [provider]. unfold observed_policy, find_queue_at.
  destruct (find (at_url region url) (queues w)) as [q|] eqn:F;
    intros P; inversion P; subst; clear P.
  intros A. unfold set_queues. cbn [queues].
  induction (queues w) as [|q' l IH]; [discriminate|].
  cbn [find map] in *.
  destruct (at_url region url q') eqn:U.
  - unfold with_attributes. rewrite A.
    assert (U' : at_url region url
                   (Queue (q_name q') (q_attributes q') (Some p)) = true)
      by exact U.
    rewrite U'. reflexivity.
  - rewrite U. apply IH. exact F.
Qed.

(** Putting a configuration makes it the bucket's configuration. *)
Lemma sim_put_bucket_notification_configuration_replaces (w : aws)
    (bucket : string) (conf : pyval) (w' : aws) (response : pyval) :
  provider region w
    (S3_put_bucket_notification_configuration bucket conf) =
    (w', inr response) ->
  observed_notification w' bucket = Some conf.
Proof.
  cbn [provider]. unfold observed_notification, find_bucket.
  destruct (find (fun b => String.eqb (b_name b) bucket) (buckets w))
    as [b|] eqn:F; intros P; inversion P; subst; clear P.
  unfold set_buckets. cbn [buckets].
  induction (buckets w) as [|b' l IH]; [discriminate|].
  cbn [find map] in *.
  destruct (String.eqb (b_name b') bucket) eqn:U.
  - cbn [b_name]. rewrite U. reflexivity.
  - rewrite U. apply IH. exact F.
Qed.

End Region.

End SimAWSFacts.

(** ** The policy of the identity *)

Lemma length_append (a b : string) :
  String.length (a ++ b) = String.length a + String.length b.
Proof.
  induction a as [|c a IH]; cbn; [reflexivity | rewrite IH; reflexivity].
Qed.

Lemma append_cancel_r (a b s : string) :
  (a ++ s)%string = (b ++ s)%string -> a = b.
Proof.
  revert b. induction a as [|c a IH]; intros [|d b] H; cbn in H.
  - reflexivity.
  - exfalso. apply (f_equal String.length) in H. cbn in H.
    rewrite length_append in H. lia.
  - exfalso. apply (f_equal String.length) in H. cbn in H.
    rewrite length_append in H. lia.
  - inversion H. f_equal. auto.
Qed.

Lemma append_assoc (a b c : string) :
  ((a ++ b) ++ c)%string = (a ++ (b ++ c))%string.
Proof.
  induction a as [|x a IH]; cbn; [reflexivity | rewrite IH; reflexivity].
Qed.

(** The queue reference assembled by the identity step is the identifier of
    the configured queue in no account. *)
Lemma assembled_reference_names_no_queue (region name account : string) :
  ("arn:aws:sqs:" ++ region ++ ":*: " ++ name)%string <>
  queue_arn_of region account name.
Proof.
  unfold queue_arn_of. intros H.
  apply SimAWSFacts.append_cancel, SimAWSFacts.append_cancel in H.
  cbn in H. inversion H as [H1]. clear H.
  change (("*: " ++ name)%string = (account ++ (":" ++ name))%string) in H1.
  rewrite <- append_assoc in H1.
  apply append_cancel_r in H1.
  destruct account as [|a [|b [|c [|d account]]]]; cbn in H1; discriminate.
Qed.

(** C3.  The policy of the identity has two Allow statements.  Their
    actions are exactly object put and get, and message receive, message
    delete and queue-attribute read; the first resource is the objects of
    the configured bucket.  The second resource, however, is a text
    assembled from region and queue name with the account segment [*] and a
    space before the name: in no account is it the identifier of the
    configured queue. *)
Theorem policy_document_queue_reference (cfg : config) :
  exists objects messages,
    policy_document cfg =
      VDict [("Version", VStr "2012-10-17");
             ("Statement", VList [objects; messages])] /\
    subscript objects "Effect" = inr (VStr "Allow") /\
    subscript objects "Action" =
      inr (VList [VStr "s3:PutObject"; VStr "s3:GetObject"]) /\
    subscript objects "Resource" =
      inr (VList [VStr ("arn:aws:s3:::" ++ BUCKET_NAME cfg ++ "/*")]) /\
    subscript messages "Effect" = inr (VStr "Allow") /\
    subscript messages "Action" =
      inr (VList [VStr "sqs:ReceiveMessage"; VStr "sqs:DeleteMessage";
                  VStr "sqs:GetQueueAttributes"]) /\
    subscript messages "Resource" =
      inr (VStr ("arn:aws:sqs:" ++ AWS_REGION cfg ++ ":*: "
                   ++ QUEUE_NAME cfg)) /\
    forall account,
      subscript messages "Resource" <>
      inr (VStr (queue_arn_of (AWS_REGION cfg) account (QUEUE_NAME cfg))).
Proof.
  do 2 eexists. split; [reflexivity|].
  cbn -[String.append queue_arn_of]. repeat split.
  intros account H.
  apply (assembled_reference_names_no_queue
           (AWS_REGION cfg) (QUEUE_NAME cfg) account).
  congruence.
Qed.

(** ** Runs on the reference provider *)

(** C2.  On an empty account the script runs to its end.  The queue step
    resolves the queue's identifier, and the queue policy and the
    notification configuration embed it; the policy created for the
    identity embeds a reference assembled from region and queue name
    instead, which differs from the resolved identifier.  Indeed the
    identity step does not depend on the identifier it is given. *)
Theorem identity_policy_embeds_assembled_reference :
  (forall W (provider : W -> api_call -> W * (exn + pyval)) json_dumps cfg
          q1 q2 w,
     create_iam_user provider json_dumps cfg q1 w =
     create_iam_user provider json_dumps cfg q2 w) /\
  result first_run = inr tt /\
  result (create_sqs_queue shipped_provider shipped_config
            (world (create_s3_bucket shipped_provider shipped_config
                      SimAWS.empty))) =
    inr (Some (shipped_queue_url, shipped_queue_arn)) /\
  In (SQS_set_queue_attributes shipped_queue_url
        (VDict [("Policy",
                 VStr (SimAWS.json_text
                         (sqs_policy shipped_config shipped_queue_arn)))]))
     (calls_of (events first_run)) /\
  In (S3_put_bucket_notification_configuration (BUCKET_NAME shipped_config)
        (s3_notification_config shipped_queue_arn))
     (calls_of (events first_run)) /\
  In (IAM_create_policy (IAM_POLICY_NAME shipped_config)
        (VStr (SimAWS.json_text (policy_document shipped_config))))
     (calls_of (events first_run)) /\
  exists objects messages,
    subscript (policy_document shipped_config) "Statement" =
      inr (VList [objects; messages]) /\
    subscript messages "Resource" =
      inr (VStr "arn:aws:sqs:us-east-1:*: audio-transcriber-ingress-queue") /\
    subscript messages "Resource" <> inr shipped_queue_arn.
Proof.
  split; [reflexivity|].
  split; [vm_compute; reflexivity|].
  split; [vm_compute; reflexivity|].
  split; [vm_compute; tauto|].
  split; [vm_compute; tauto|].
  split; [vm_compute; tauto|].
  do 2 eexists. split; [reflexivity|]. split; [reflexivity|].
  vm_compute. discriminate.
Qed.

(** C1.  Two runs in which a step's failure escapes.  When the provider
    refuses to set the queue policy, the access binder raises, and [main]
    ends with that exception after the third step: event wiring and the
    identity step do not run.  When the provider refuses the notification
    configuration, event wiring raises and the identity step does not
    run. *)
Theorem main_stops_at_unguarded_steps :
  let denied := ClientError "AccessDenied" "Access to the resource is denied." in
  let run3 :=
    main (denying is_set_queue_attributes) SimAWS.json_text shipped_config
      SimAWS.empty in
  let run4 :=
    main (denying is_put_notification) SimAWS.json_text shipped_config
      SimAWS.empty in
  result run3 = inl denied /\
  calls_of (events run3) =
    [S3_create_bucket (BUCKET_NAME shipped_config) None;
     queue_request shipped_config;
     SQS_get_queue_attributes shipped_queue_url ["QueueArn"];
     queue_request shipped_config;
     SQS_get_queue_attributes shipped_queue_url ["QueueArn"];
     SQS_set_queue_attributes shipped_queue_url
       (VDict [("Policy",
                VStr (SimAWS.json_text
                        (sqs_policy shipped_config shipped_queue_arn)))])] /\
  result run4 = inl denied /\
  calls_of (events run4) =
    [S3_create_bucket (BUCKET_NAME shipped_config) None;
     queue_request shipped_config;
     SQS_get_queue_attributes shipped_queue_url ["QueueArn"];
     queue_request shipped_config;
     SQS_get_queue_attributes shipped_queue_url ["QueueArn"];
     SQS_set_queue_attributes shipped_queue_url
       (VDict [("Policy",
                VStr (SimAWS.json_text
                        (sqs_policy shipped_config shipped_queue_arn)))]);
     S3_put_bucket_notification_configuration (BUCKET_NAME shipped_config)
       (s3_notification_config shipped_queue_arn)].
Proof.
  cbv zeta. repeat split; vm_compute; reflexivity.
Qed.

(** The reference provider's lookups leave the observed attributes alone. *)
Lemma shipped_get_queue_attributes_reads (w : SimAWS.aws) (url : pyval)
    (names : list string) (u : pyval) (k : string) :
  SimAWS.observed_attribute (AWS_REGION shipped_config)
    (fst (shipped_provider w (SQS_get_queue_attributes url names))) u k =
  SimAWS.observed_attribute (AWS_REGION shipped_config) w u k.
Proof.
  unfold shipped_provider.
  rewrite SimAWSFacts.sim_get_queue_attributes_pure. reflexivity.
Qed.

(** The reference provider's lookups are read-only. *)
Lemma shipped_lookup_read_only : lookup_read_only shipped_provider.
Proof.
  intros w url names. apply SimAWSFacts.sim_get_queue_attributes_pure.
Qed.

Lemma shipped_lookups_only (w w' : SimAWS.aws) :
  lookups_only shipped_provider w w' -> w' = w.
Proof.
  induction 1 as [w|w url names w' L IH]; [reflexivity|].
  rewrite IH. apply shipped_lookup_read_only.
Qed.

(** The reference provider's queue creation is idempotent. *)
Lemma shipped_create_queue_idempotent :
  create_queue_idempotent shipped_provider.
Proof.
  intros w name attrs w1 response P w' L.
  apply shipped_lookups_only in L. subst w'.
  exists response. split; [|reflexivity].
  exact (SimAWSFacts.sim_create_queue_idempotent _ _ _ _ _ _ P).
Qed.

(** The reference provider lets the whole queue step be repeated. *)
Lemma shipped_queue_step_repeats (w : SimAWS.aws) :
  queue_step_repeats shipped_provider shipped_config w.
Proof.
  apply queue_step_repeats_of_laws.
  - intros w0 name attrs w1 response P. exists response.
    split; [|reflexivity].
    exact (SimAWSFacts.sim_create_queue_idempotent _ _ _ _ _ _ P).
  - intros w0 url names. apply SimAWSFacts.sim_get_queue_attributes_pure.
Qed.

Lemma create_s3_bucket_location_constraint_witness :
  calls_of (events (create_s3_bucket shipped_provider shipped_config
                      SimAWS.empty)) =
    [S3_create_bucket "audio-transcriber-ingress-bucket" None] /\
  calls_of (events (create_s3_bucket (SimAWS.provider "eu-west-1")
                      ireland_config SimAWS.empty)) =
    [S3_create_bucket "audio-transcriber-ingress-bucket"
       (Some (VDict [("LocationConstraint", VStr "eu-west-1")]))].
Proof.
  split.
  - apply (proj1 (create_s3_bucket_location_constraint _ shipped_provider
                    shipped_config SimAWS.empty)).
    reflexivity.
  - apply (proj2 (create_s3_bucket_location_constraint _
                    (SimAWS.provider "eu-west-1") ireland_config
                    SimAWS.empty)).
    discriminate.
Defined.

Lemma create_sqs_queue_attributes_witness :
  SimAWS.observed_attribute "us-east-1" queue_created shipped_queue_url
    "VisibilityTimeout" = Some (VStr "300") /\
  SimAWS.observed_attribute "us-east-1" queue_created shipped_queue_url
    "MessageRetentionPeriod" = Some (VStr "1209600").
Proof.
  apply (proj2 (create_sqs_queue_attributes _ shipped_provider shipped_config
                  (SimAWS.observed_attribute "us-east-1")
                  (SimAWSFacts.sim_create_queue_stores "us-east-1")
                  shipped_get_queue_attributes_reads SimAWS.empty)
           shipped_queue_url shipped_queue_arn).
  reflexivity.
Defined.

Lemma attach_sqs_policy_statement_witness :
  SimAWS.observed_policy "us-east-1" account_with_policy shipped_queue_url =
    Some (VStr "an earlier policy") /\
  SimAWS.observed_policy "us-east-1"
    (world (attach_sqs_policy shipped_provider SimAWS.json_text
              shipped_config shipped_queue_arn account_with_policy))
    shipped_queue_url =
    Some (VStr (SimAWS.json_text
                  (sqs_policy shipped_config shipped_queue_arn))).
Proof.
  split; [reflexivity|].
  apply (proj2 (proj1 (proj2
           (attach_sqs_policy_statement _ shipped_provider SimAWS.json_text
              shipped_config (SimAWS.observed_policy "us-east-1")
              (SimAWSFacts.sim_set_queue_attributes_overwrites "us-east-1")
              shipped_queue_arn account_with_policy))
           shipped_queue_url shipped_queue_arn eq_refl)).
  reflexivity.
Defined.

Lemma configure_s3_notifications_replaces_witness :
  SimAWS.observed_notification (world wired_once)
    "audio-transcriber-ingress-bucket" =
    Some (s3_notification_config shipped_queue_arn) /\
  SimAWS.observed_notification (world wired_twice)
    "audio-transcriber-ingress-bucket" =
    Some (s3_notification_config other_queue_arn).
Proof.
  pose proof (configure_s3_notifications_replaces _ shipped_provider
                shipped_config SimAWS.observed_notification
                (SimAWSFacts.sim_put_bucket_notification_configuration_replaces
                   "us-east-1")
                shipped_queue_arn other_queue_arn
                (world (create_s3_bucket shipped_provider shipped_config
                          SimAWS.empty))) as H.
  destruct H as (_ & _ & _ & H1 & H2).
  split; [apply H1 | apply H2]; reflexivity.
Defined.

Lemma main_refines_main_threaded_witness :
  result first_run =
    result (main_threaded shipped_provider SimAWS.json_text shipped_config
              SimAWS.empty) /\
  world first_run =
    world (main_threaded shipped_provider SimAWS.json_text shipped_config
             SimAWS.empty).
Proof.
  pose proof (main_refines_main_threaded _ shipped_provider SimAWS.json_text
                shipped_config SimAWS.empty
                shipped_create_queue_idempotent
                shipped_lookup_read_only) as H.
  split; [exact (proj1 H) | exact (proj1 (proj2 H))].
Defined.

(** Lookups at the throttled provider leave the account as it was. *)
Lemma throttled_lookups_only (w w' : SimAWS.aws * nat) :
  lookups_only throttled_provider w w' -> fst w' = fst w.
Proof.
  induction 1 as [w|w url names w' L IH]; [reflexivity|].
  rewrite IH. unfold throttled_provider, throttling.
  destruct (snd w); cbn [fst snd]; [|reflexivity].
  apply shipped_lookup_read_only.
Qed.

(** Queue creation at the throttled provider is idempotent. *)
Lemma throttled_create_queue_idempotent :
  create_queue_idempotent throttled_provider.
Proof.
  intros [a n] name attrs [a1 n1] response P [a' n'] L.
  apply throttled_lookups_only in L. cbn in L. subst a'.
  unfold throttled_provider, throttling in *. cbn [fst snd] in *.
  destruct (shipped_provider a (SQS_create_queue name attrs))
    as [a2 r] eqn:E.
  cbn in P. inversion P. subst a2 n1 r. clear P.
  assert (E' : shipped_provider a1 (SQS_create_queue name attrs) =
               (a1, inr response))
    by exact (SimAWSFacts.sim_create_queue_idempotent _ _ _ _ _ _ E).
  rewrite E'. exists response. split; reflexivity.
Qed.

(** At the throttled provider queue creation is idempotent, yet [main] and
    [main_threaded] part: the binder's repeated lookup is refused, so [main]
    raises [TypeError] and sets no policy, while [main_threaded] returns and
    sets it. *)
Lemma main_refines_main_threaded_counterexample :
  create_queue_idempotent throttled_provider /\
  result (main throttled_provider SimAWS.json_text shipped_config
            (SimAWS.empty, 0)) =
    inl (TypeError "cannot unpack non-iterable NoneType object") /\
  result (main_threaded throttled_provider SimAWS.json_text shipped_config
            (SimAWS.empty, 0)) = inr tt /\
  filter is_set_queue_attributes
    (calls_of (events (main throttled_provider SimAWS.json_text
                         shipped_config (SimAWS.empty, 0)))) = [] /\
  filter is_set_queue_attributes
    (calls_of (events (main_threaded throttled_provider SimAWS.json_text
                         shipped_config (SimAWS.empty, 0)))) =
    [SQS_set_queue_attributes shipped_queue_url
       (VDict [("Policy",
                VStr (SimAWS.json_text
                        (sqs_policy shipped_config shipped_queue_arn)))])].
Proof.
  split; [exact throttled_create_queue_idempotent|].
  repeat split; vm_compute; reflexivity.
Qed.

(** The second run of the script meets the identity of the first: the
    identity step makes its one refused call, and the run adds no access
    key. *)
Lemma create_iam_user_name_taken_witness :
  (result identity_again = inr tt /\
   world identity_again = world first_run /\
   events identity_again =
     [Printed [Lit "Creating IAM user: ";
               Lit (IAM_USER_NAME shipped_config); Lit "..."];
      Called (IAM_create_user (IAM_USER_NAME shipped_config)) (inl name_taken);
      Printed [Lit "⚠️ Error creating IAM user: "; Exc name_taken]]) /\
  SimAWS.access_keys (world second_run) =
    [("audio-transcriber-ingress-user", "AKIAEXAMPLE")].
Proof.
  split.
  - apply (create_iam_user_name_taken _ shipped_provider SimAWS.json_text
             shipped_config shipped_queue_arn (world first_run)
             (world first_run)).
    vm_compute. reflexivity.
  - vm_compute. reflexivity.
Defined.

Lemma main_aborts_when_queue_creation_fails_witness :
  result (main (denying is_create_queue) SimAWS.json_text shipped_config
            SimAWS.empty) =
    inl (TypeError "cannot unpack non-iterable NoneType object") /\
  forallb upstream_call
    (calls_of (events (main (denying is_create_queue) SimAWS.json_text
                         shipped_config SimAWS.empty))) = true.
Proof.
  pose proof (main_aborts_when_queue_creation_fails _
                (denying is_create_queue) SimAWS.json_text shipped_config
                SimAWS.empty
                (ClientError "AccessDenied" "Access to the resource is denied.")
                eq_refl) as H.
  split; [exact (proj1 (proj2 H)) | exact (proj2 (proj2 (proj2 (proj2 H))))].
Defined.

(** ** Further properties of the steps *)

Section Outcomes.

Variable W : Type.
Variable provider : W -> api_call -> W * (exn + pyval).
Variable json_dumps : pyval -> string.
Variable cfg : config.

(** X1.  The storage step returns normally whatever the provider answers
    to its one request; it prints the success line when the request was
    accepted and the error line, with the exception, when it was refused,
    and leaves the provider in the state that request produced. *)
Theorem create_s3_bucket_outcome (w : W) :
  result (create_s3_bucket provider cfg w) = inr tt /\
  world (create_s3_bucket provider cfg w) =
    fst (provider w (bucket_request cfg)) /\
  events (create_s3_bucket provider cfg w) =
    [Printed [Lit "Creating S3 bucket: "; Lit (BUCKET_NAME cfg); Lit "..."];
     Called (bucket_request cfg) (snd (provider w (bucket_request cfg)));
     Printed
       match snd (provider w (bucket_request cfg)) with
       | inl e => [Lit "⚠️ Error creating S3 bucket: "; Exc e]
       | inr _ => [Lit "✅ S3 bucket created!"]
       end].
Proof.
  unfold create_s3_bucket, bucket_request, try_except, bind, print, call.
  destruct (String.eqb (AWS_REGION cfg) "us-east-1"); cbn;
    match goal with
    | |- context [provider w ?c] => destruct (provider w c) as [w' [e|v]]
    end; cbn; auto.
Qed.

(** X2.  When the answer to the creation request has no [QueueUrl] key,
    the queue step makes no lookup: it logs the [KeyError] and returns
    [None]. *)
Theorem create_sqs_queue_missing_url (w w1 : W) (d : list (string * pyval)) :
  provider w (queue_request cfg) = (w1, inr (VDict d)) ->
  assoc "QueueUrl" d = None ->
  result (create_sqs_queue provider cfg w) = inr None /\
  world (create_sqs_queue provider cfg w) = w1 /\
  events (create_sqs_queue provider cfg w) =
    [Printed [Lit "Creating SQS queue: "; Lit (QUEUE_NAME cfg); Lit "..."];
     Called (queue_request cfg) (inr (VDict d));
     Printed [Lit "⚠️ Error creating SQS queue: "; Exc (KeyError "QueueUrl")]].
Proof.
  unfold queue_request. intros P A. run_script. rewrite P. cbn.
  rewrite A. cbn. auto.
Qed.

(** X3.  The queue step returns the pair [(url, arn)] exactly when the
    provider answered the creation request with a response whose
    [QueueUrl] is [url], and then answered the lookup of [QueueArn] made at
    that very address with a response whose [Attributes] hold [arn] under
    [QueueArn]. *)
Theorem create_sqs_queue_resolved (w : W) (url arn : pyval) :
  result (create_sqs_queue provider cfg w) = inr (Some (url, arn)) <->
  exists w1 response w2 queue_attributes attributes,
    provider w (queue_request cfg) = (w1, inr response) /\
    subscript response "QueueUrl" = inr url /\
    provider w1 (SQS_get_queue_attributes url ["QueueArn"]) =
      (w2, inr queue_attributes) /\
    subscript queue_attributes "Attributes" = inr attributes /\
    subscript attributes "QueueArn" = inr arn.
Proof.
  split.
  - intros R.
    destruct (create_sqs_queue_success W provider cfg w url arn R)
      as (w1 & resp & w2 & qa & attrs & P1 & S1 & P2 & S2 & S3 & _).
    exists w1, resp, w2, qa, attrs. auto.
  - intros (w1 & resp & w2 & qa & attrs & P1 & S1 & P2 & S2 & S3).
    unfold queue_request in P1. run_script.
    rewrite P1. cbn. rewrite S1. cbn. rewrite P2. cbn.
    rewrite S2. cbn. rewrite S3. cbn. reflexivity.
Qed.

(** A trace with no call after its first refused call has no call after
    any refused call. *)
Lemma after_refusal_nil (t : trace) :
  after_refusal t = [] ->
  forall before c e after,
    t = before ++ Called c (inl e) :: after -> calls_of after = [].
Proof.
  intros H before. revert t H.
  induction before as [|x before IH]; intros t H c e after E; subst t.
  - exact H.
  - destruct x as [c' [e'|v']|l]; cbn in H.
    + rewrite calls_of_app in H. cbn in H.
      destruct (calls_of before); discriminate.
    + exact (IH _ H c e after eq_refl).
    + exact (IH _ H c e after eq_refl).
Qed.

(** X4.  Whatever the provider answers, the calls of the identity step are
    an initial part of the sequence: create the user, create the policy
    with [policy_document], attach the policy to the user, create one
    access key; and a call the provider refuses is the last call of the
    step.  No sub-step runs out of order, twice, or after a refused one. *)
Theorem create_iam_user_calls_in_order (q : pyval) (w : W) :
  (exists policy_arn rest,
     calls_of (events (create_iam_user provider json_dumps cfg q w)) ++ rest =
       [IAM_create_user (IAM_USER_NAME cfg);
        IAM_create_policy (IAM_POLICY_NAME cfg)
          (VStr (json_dumps (policy_document cfg)));
        IAM_attach_user_policy (IAM_USER_NAME cfg) policy_arn;
        IAM_create_access_key (IAM_USER_NAME cfg)]) /\
  (forall before c e after,
     events (create_iam_user provider json_dumps cfg q w) =
       before ++ Called c (inl e) :: after ->
     calls_of after = []).
Proof.
  split.
  - run_script. repeat (answer provider);
      first [ exists q; eexists; reflexivity
            | do 2 eexists; reflexivity ].
  - apply after_refusal_nil.
    run_script. repeat (answer provider); reflexivity.
Qed.

(** X5.  When the four requests of the identity step are accepted, the
    policy attached to the user is the one whose [Arn] the creation of the
    policy returned, and the step prints the identifier and the secret of
    the new access key, each once, as its last two lines. *)
Theorem create_iam_user_success (q : pyval) (w w1 w2 w3 w4 : W)
    (user policy_response policy policy_arn attached access_key key key_id
       secret : pyval) :
  provider w (IAM_create_user (IAM_USER_NAME cfg)) = (w1, inr user) ->
  provider w1
    (IAM_create_policy (IAM_POLICY_NAME cfg)
       (VStr (json_dumps (policy_document cfg)))) =
    (w2, inr policy_response) ->
  subscript policy_response "Policy" = inr policy ->
  subscript policy "Arn" = inr policy_arn ->
  provider w2 (IAM_attach_user_policy (IAM_USER_NAME cfg) policy_arn) =
    (w3, inr attached) ->
  provider w3 (IAM_create_access_key (IAM_USER_NAME cfg)) =
    (w4, inr access_key) ->
  subscript access_key "AccessKey" = inr key ->
  subscript key "AccessKeyId" = inr key_id ->
  subscript key "SecretAccessKey" = inr secret ->
  result (create_iam_user provider json_dumps cfg q w) = inr tt /\
  world (create_iam_user provider json_dumps cfg q w) = w4 /\
  calls_of (events (create_iam_user provider json_dumps cfg q w)) =
    [IAM_create_user (IAM_USER_NAME cfg);
     IAM_create_policy (IAM_POLICY_NAME cfg)
       (VStr (json_dumps (policy_document cfg)));
     IAM_attach_user_policy (IAM_USER_NAME cfg) policy_arn;
     IAM_create_access_key (IAM_USER_NAME cfg)] /\
  lines_of (events (create_iam_user provider json_dumps cfg q w)) =
    [[Lit "Creating IAM user: "; Lit (IAM_USER_NAME cfg); Lit "..."];
     [Lit "Creating IAM policy: "; Lit (IAM_POLICY_NAME cfg); Lit "..."];
     [Lit "Attaching policy to user..."];
     [Lit "Creating access key for user..."];
     [Lit "✅ IAM user and policy created successfully!"];
     [Lit "🔑 Access Key ID:"; Lit " "; Val key_id];
     [Lit "🔑 Secret Access Key:"; Lit " "; Val secret]].
Proof.
  intros P1 P2 S1 S2 P3 P4 S3 S4 S5. run_script.
  rewrite P1. cbn. rewrite P2. cbn. rewrite S1. cbn. rewrite S2. cbn.
  rewrite P3. cbn. rewrite P4. cbn. rewrite S3. cbn. rewrite S4. cbn.
  rewrite S5. cbn. auto.
Qed.

(** X6.  The access binder depends on its own run of the queue step: when
    an exception is raised inside that run, the binder raises [TypeError]
    at the unpacking, having set no policy, although its caller passed it a
    queue identifier. *)
Theorem attach_sqs_policy_needs_queue_step (q : pyval) (w : W) (e : exn) :
  result (create_sqs_queue_try provider cfg w) = inl e ->
  result (attach_sqs_policy provider json_dumps cfg q w) =
    inl (TypeError "cannot unpack non-iterable NoneType object") /\
  world (attach_sqs_policy provider json_dumps cfg q w) =
    world (create_sqs_queue provider cfg w) /\
  events (attach_sqs_policy provider json_dumps cfg q w) =
    Printed [Lit "🔹 Setting SQS policy to allow S3 events..."] ::
    events (create_sqs_queue provider cfg w) /\
  existsb is_set_queue_attributes
    (calls_of (events (attach_sqs_policy provider json_dumps cfg q w))) =
    false.
Proof.
  intros R.
  pose proof (create_sqs_queue_result W provider cfg w) as Q.
  rewrite R in Q. destruct Q as (Q & _ & _).
  pose proof (create_sqs_queue_ensure W provider cfg w) as N.
  unfold attach_sqs_policy, unpack, bind, print, call, ret, raise.
  destruct (create_sqs_queue provider cfg w) as [r w1 t1].
  cbn in Q, N. subst r. cbn. rewrite app_nil_r.
  repeat split.
  induction (calls_of t1) as [|c l IH]; [reflexivity|].
  cbn in N |- *. apply andb_prop in N. destruct N as [Nc Nl].
  rewrite (IH Nl). destruct c; cbn in *; try discriminate; reflexivity.
Qed.

(** X7.  When the binder's own queue step returns an address, the binder
    ends as the request to set the policy at that address ends: it returns
    when the request is accepted and raises the provider's exception,
    unchanged, when it is refused.  The identifier that queue step resolved
    is not used. *)
Theorem attach_sqs_policy_outcome (q url arn : pyval) (w : W) :
  result (create_sqs_queue provider cfg w) = inr (Some (url, arn)) ->
  result (attach_sqs_policy provider json_dumps cfg q w) =
    match
      snd (provider (world (create_sqs_queue provider cfg w))
             (SQS_set_queue_attributes url
                (VDict [("Policy", VStr (json_dumps (sqs_policy cfg q)))])))
    with
    | inl e => inl e
    | inr _ => inr tt
    end /\
  world (attach_sqs_policy provider json_dumps cfg q w) =
    fst (provider (world (create_sqs_queue provider cfg w))
           (SQS_set_queue_attributes url
              (VDict [("Policy", VStr (json_dumps (sqs_policy cfg q)))]))).
Proof.
  intros R.
  unfold attach_sqs_policy, unpack, bind, print, call, ret, raise.
  destruct (create_sqs_queue provider cfg w) as [r w1 t1].
  cbn in R. subst r. cbn.
  destruct (provider w1 _) as [w2 [e|v]]; cbn; auto.
Qed.

(** X8.  Event wiring ends as its one request ends: it returns and prints
    its success line when the request is accepted, and raises the
    provider's exception, unchanged and without that line, when it is
    refused. *)
Theorem configure_s3_notifications_outcome (q : pyval) (w : W) :
  result (configure_s3_notifications provider cfg q w) =
    match
      snd (provider w
             (S3_put_bucket_notification_configuration (BUCKET_NAME cfg)
                (s3_notification_config q)))
    with
    | inl e => inl e
    | inr _ => inr tt
    end /\
  world (configure_s3_notifications provider cfg q w) =
    fst (provider w
           (S3_put_bucket_notification_configuration (BUCKET_NAME cfg)
              (s3_notification_config q))) /\
  lines_of (events (configure_s3_notifications provider cfg q w)) =
    [Lit "🔹 Configuring S3 event notifications..."] ::
    match
      snd (provider w
             (S3_put_bucket_notification_configuration (BUCKET_NAME cfg)
                (s3_notification_config q)))
    with
    | inl _ => []
    | inr _ => [[Lit "✅ S3 event notifications configured!"]]
    end.
Proof.
  unfold configure_s3_notifications, bind, print, call.
  destruct (provider w _) as [w1 [e|v]]; cbn; auto.
Qed.

End Outcomes.

(** ** Further properties of the whole run *)

Section Completion.

Variable W : Type.
Variable provider : W -> api_call -> W * (exn + pyval).
Variable json_dumps : pyval -> string.
Variable cfg : config.

(** Deciding that a printed line is not the completion line. *)
Ltac not_completion :=
  unfold completion_line; cbn [In];
  intuition (try discriminate; try congruence).

Lemma create_s3_bucket_quiet (w : W) :
  ~ In completion_line (events (create_s3_bucket provider cfg w)).
Proof.
  run_script. destruct (String.eqb _ _); repeat (answer provider);
    not_completion.
Qed.

Lemma create_sqs_queue_quiet (w : W) :
  ~ In completion_line (events (create_sqs_queue provider cfg w)).
Proof.
  run_script. repeat (answer provider); not_completion.
Qed.

Lemma attach_sqs_policy_quiet (q : pyval) (w : W) :
  ~ In completion_line (events (attach_sqs_policy provider json_dumps cfg q w)).
Proof.
  run_script. repeat (answer provider); not_completion.
Qed.

Lemma configure_s3_notifications_quiet (q : pyval) (w : W) :
  ~ In completion_line (events (configure_s3_notifications provider cfg q w)).
Proof.
  run_script. repeat (answer provider); not_completion.
Qed.

Lemma create_iam_user_quiet (q : pyval) (w : W) :
  ~ In completion_line (events (create_iam_user provider json_dumps cfg q w)).
Proof.
  run_script. repeat (answer provider); not_completion.
Qed.

(** X9.  When the queue step of [main] returns a pair and neither the
    access binder nor event wiring raises, [main] returns, and its run is
    the five steps in order, each started in the state the previous one
    left and the last three given the identifier the queue step of [main]
    resolved, followed by the completion line.  Failures inside the storage
    step and the identity step do not matter: the completion line is
    printed all the same. *)
Theorem main_runs_steps_in_order (w : W) (url arn : pyval) :
  let w1 := world (create_s3_bucket provider cfg w) in
  let w2 := world (create_sqs_queue provider cfg w1) in
  let w3 := world (attach_sqs_policy provider json_dumps cfg arn w2) in
  let w4 := world (configure_s3_notifications provider cfg arn w3) in
  result (create_sqs_queue provider cfg w1) = inr (Some (url, arn)) ->
  result (attach_sqs_policy provider json_dumps cfg arn w2) = inr tt ->
  result (configure_s3_notifications provider cfg arn w3) = inr tt ->
  result (main provider json_dumps cfg w) = inr tt /\
  world (main provider json_dumps cfg w) =
    world (create_iam_user provider json_dumps cfg arn w4) /\
  events (main provider json_dumps cfg w) =
    events (create_s3_bucket provider cfg w) ++
    events (create_sqs_queue provider cfg w1) ++
    events (attach_sqs_policy provider json_dumps cfg arn w2) ++
    events (configure_s3_notifications provider cfg arn w3) ++
    events (create_iam_user provider json_dumps cfg arn w4) ++
    [completion_line].
Proof.
  intros w1 w2 w3 w4 R RA RC.
  destruct (create_s3_bucket_run W provider cfg w) as (B & _ & _).
  assert (U : bind (create_sqs_queue provider cfg) (fun r => unpack r) w1 =
              Outcome (inr (url, arn)) w2
                (events (create_sqs_queue provider cfg w1))).
  { rewrite (bind_returns _ _ _ _ R). cbn. rewrite app_nil_r. reflexivity. }
  pose proof (create_iam_user_returns W provider json_dumps cfg arn w4) as RI.
  unfold main. rewrite (bind_returns _ _ _ _ B). fold w1.
  rewrite (bind_after _ _ _ _ _ _ U). cbn [fst snd].
  rewrite (bind_returns _ _ _ _ RA). fold w3.
  rewrite (bind_returns _ _ _ _ RC). fold w4.
  rewrite (bind_returns _ _ _ _ RI).
  cbn [result world events print]. auto.
Qed.

(** X10.  [main] returns normally exactly when the completion line is
    among its events: no step prints that line, and every run of [main]
    that an exception ends stops before it. *)
Theorem main_completion (w : W) :
  result (main provider json_dumps cfg w) = inr tt <->
  In completion_line (events (main provider json_dumps cfg w)).
Proof.
  pose proof (create_s3_bucket_quiet w) as Q1.
  destruct (create_s3_bucket_run W provider cfg w) as (B & _ & _).
  unfold main, bind.
  destruct (create_s3_bucket provider cfg w) as [r1 w1 t1].
  cbn in B, Q1. subst r1.
  pose proof (create_sqs_queue_quiet w1) as Q2.
  destruct (create_sqs_queue_returns W provider cfg w1) as [r2 R2].
  destruct (create_sqs_queue provider cfg w1) as [r2' w2 t2].
  cbn in R2, Q2. subst r2'.
  destruct r2 as [[url arn]|]; cbn [unpack ret raise fst snd].
  - pose proof (attach_sqs_policy_quiet arn w2) as Q3.
    destruct (attach_sqs_policy provider json_dumps cfg arn w2)
      as [[e3|[]] w3 t3]; cbn in Q3.
    + cbn. rewrite !in_app_iff. cbn [In]. intuition discriminate.
    + pose proof (configure_s3_notifications_quiet arn w3) as Q4.
      destruct (configure_s3_notifications provider cfg arn w3)
        as [[e4|[]] w4 t4]; cbn in Q4.
      * cbn. rewrite !in_app_iff. cbn [In]. intuition discriminate.
      * pose proof (create_iam_user_quiet arn w4) as Q5.
        pose proof (create_iam_user_returns W provider json_dumps cfg arn w4)
          as R5.
        destruct (create_iam_user provider json_dumps cfg arn w4)
          as [r5 w5 t5]; cbn in Q5, R5. subst r5.
        cbn. rewrite !in_app_iff. cbn [In]. unfold completion_line. tauto.
  - cbn. rewrite !in_app_iff. cbn [In]. intuition discriminate.
Qed.

(** X11.  When the access binder raises in [main], [main] raises the same
    exception and its run ends with the binder's events: event wiring and
    the identity step are not started and the completion line is not
    printed. *)
Theorem main_stops_with_access_binder (w : W) (url arn : pyval) (e : exn) :
  let w1 := world (create_s3_bucket provider cfg w) in
  let w2 := world (create_sqs_queue provider cfg w1) in
  result (create_sqs_queue provider cfg w1) = inr (Some (url, arn)) ->
  result (attach_sqs_policy provider json_dumps cfg arn w2) = inl e ->
  result (main provider json_dumps cfg w) = inl e /\
  world (main provider json_dumps cfg w) =
    world (attach_sqs_policy provider json_dumps cfg arn w2) /\
  events (main provider json_dumps cfg w) =
    events (create_s3_bucket provider cfg w) ++
    events (create_sqs_queue provider cfg w1) ++
    events (attach_sqs_policy provider json_dumps cfg arn w2).
Proof.
  intros w1 w2 R RA.
  destruct (create_s3_bucket_run W provider cfg w) as (B & _ & _).
  assert (U : bind (create_sqs_queue provider cfg) (fun r => unpack r) w1 =
              Outcome (inr (url, arn)) w2
                (events (create_sqs_queue provider cfg w1))).
  { rewrite (bind_returns _ _ _ _ R). cbn. rewrite app_nil_r. reflexivity. }
  unfold main. rewrite (bind_returns _ _ _ _ B). fold w1.
  rewrite (bind_after _ _ _ _ _ _ U). cbn [fst snd].
  rewrite (bind_raises _ _ _ _ RA).
  cbn [result world events]. auto.
Qed.

(** X12.  When event wiring raises in [main], [main] raises the same
    exception and its run ends with the events of event wiring: the
    identity step is not started, so no user, policy or access key is
    requested, and the completion line is not printed. *)
Theorem main_stops_with_event_wiring (w : W) (url arn : pyval) (e : exn) :
  let w1 := world (create_s3_bucket provider cfg w) in
  let w2 := world (create_sqs_queue provider cfg w1) in
  let w3 := world (attach_sqs_policy provider json_dumps cfg arn w2) in
  result (create_sqs_queue provider cfg w1) = inr (Some (url, arn)) ->
  result (attach_sqs_policy provider json_dumps cfg arn w2) = inr tt ->
  result (configure_s3_notifications provider cfg arn w3) = inl e ->
  result (main provider json_dumps cfg w) = inl e /\
  world (main provider json_dumps cfg w) =
    world (configure_s3_notifications provider cfg arn w3) /\
  events (main provider json_dumps cfg w) =
    events (create_s3_bucket provider cfg w) ++
    events (create_sqs_queue provider cfg w1) ++
    events (attach_sqs_policy provider json_dumps cfg arn w2) ++
    events (configure_s3_notifications provider cfg arn w3).
Proof.
  intros w1 w2 w3 R RA RC.
  destruct (create_s3_bucket_run W provider cfg w) as (B & _ & _).
  assert (U : bind (create_sqs_queue provider cfg) (fun r => unpack r) w1 =
              Outcome (inr (url, arn)) w2
                (events (create_sqs_queue provider cfg w1))).
  { rewrite (bind_returns _ _ _ _ R). cbn. rewrite app_nil_r. reflexivity. }
  unfold main. rewrite (bind_returns _ _ _ _ B). fold w1.
  rewrite (bind_after _ _ _ _ _ _ U). cbn [fst snd].
  rewrite (bind_returns _ _ _ _ RA). fold w3.
  rewrite (bind_raises _ _ _ _ RC).
  cbn [result world events]. auto.
Qed.

End Completion.

(** ** Further runs on the reference provider *)

(** A creation answered without an address. *)
Lemma create_sqs_queue_missing_url_witness :
  result (create_sqs_queue
            (replying is_create_queue (VDict []) shipped_provider)
            shipped_config SimAWS.empty) = inr None /\
  calls_of (events (create_sqs_queue
                      (replying is_create_queue (VDict []) shipped_provider)
                      shipped_config SimAWS.empty)) =
    [queue_request shipped_config].
Proof.
  pose proof (create_sqs_queue_missing_url _
                (replying is_create_queue (VDict []) shipped_provider)
                shipped_config SimAWS.empty SimAWS.empty [] eq_refl eq_refl)
    as (R & _ & E).
  split; [exact R | rewrite E; reflexivity].
Defined.

(** The identity step on an empty account. *)
Lemma create_iam_user_success_witness :
  calls_of (events (create_iam_user shipped_provider SimAWS.json_text
                      shipped_config shipped_queue_arn SimAWS.empty)) =
    [IAM_create_user "audio-transcriber-ingress-user";
     IAM_create_policy "AudioTranscriberIngressPolicy"
       (VStr (SimAWS.json_text (policy_document shipped_config)));
     IAM_attach_user_policy "audio-transcriber-ingress-user"
       (VStr "arn:aws:iam::123456789012:policy/AudioTranscriberIngressPolicy");
     IAM_create_access_key "audio-transcriber-ingress-user"] /\
  lines_of (events (create_iam_user shipped_provider SimAWS.json_text
                      shipped_config shipped_queue_arn SimAWS.empty)) =
    [[Lit "Creating IAM user: "; Lit "audio-transcriber-ingress-user";
      Lit "..."];
     [Lit "Creating IAM policy: "; Lit "AudioTranscriberIngressPolicy";
      Lit "..."];
     [Lit "Attaching policy to user..."];
     [Lit "Creating access key for user..."];
     [Lit "✅ IAM user and policy created successfully!"];
     [Lit "🔑 Access Key ID:"; Lit " "; Val (VStr "AKIAEXAMPLE")];
     [Lit "🔑 Secret Access Key:"; Lit " "; Val (VStr "secret/AKIAEXAMPLE")]].
Proof.
  eapply proj2, proj2.
  eapply (create_iam_user_success _ shipped_provider SimAWS.json_text
            shipped_config shipped_queue_arn SimAWS.empty);
    vm_compute; reflexivity.
Defined.

(** The queue exists, but the binder's own creation request is refused. *)
Lemma attach_sqs_policy_needs_queue_step_witness :
  result (attach_sqs_policy (denying is_create_queue) SimAWS.json_text
            shipped_config shipped_queue_arn queue_created) =
    inl (TypeError "cannot unpack non-iterable NoneType object") /\
  SimAWS.observed_policy "us-east-1"
    (world (attach_sqs_policy (denying is_create_queue) SimAWS.json_text
              shipped_config shipped_queue_arn queue_created))
    shipped_queue_url = None.
Proof.
  split.
  - apply (attach_sqs_policy_needs_queue_step _ (denying is_create_queue)
             SimAWS.json_text shipped_config shipped_queue_arn queue_created
             (ClientError "AccessDenied" "Access to the resource is denied.")).
    reflexivity.
  - reflexivity.
Defined.

Lemma attach_sqs_policy_outcome_witness :
  result (attach_sqs_policy shipped_provider SimAWS.json_text shipped_config
            shipped_queue_arn SimAWS.empty) = inr tt /\
  result (attach_sqs_policy (denying is_set_queue_attributes)
            SimAWS.json_text shipped_config shipped_queue_arn SimAWS.empty) =
    inl (ClientError "AccessDenied" "Access to the resource is denied.").
Proof.
  split.
  - apply (proj1 (attach_sqs_policy_outcome _ shipped_provider
                    SimAWS.json_text shipped_config shipped_queue_arn
                    shipped_queue_url shipped_queue_arn SimAWS.empty
                    eq_refl)).
  - apply (proj1 (attach_sqs_policy_outcome _
                    (denying is_set_queue_attributes)
                    SimAWS.json_text shipped_config shipped_queue_arn
                    shipped_queue_url shipped_queue_arn SimAWS.empty
                    eq_refl)).
Defined.

(** The second run: the storage step and the identity step both meet what
    the first run created, and the completion line is printed. *)
Lemma main_runs_steps_in_order_witness :
  result second_run = inr tt /\
  In [Lit "⚠️ Error creating S3 bucket: ";
      Exc (ClientError "BucketAlreadyOwnedByYou"
             "Your previous request to create the named bucket succeeded and you already own it.")]
     (lines_of (events second_run)) /\
  In [Lit "⚠️ Error creating IAM user: "; Exc name_taken]
     (lines_of (events second_run)).
Proof.
  split.
  - apply (main_runs_steps_in_order _ shipped_provider SimAWS.json_text
             shipped_config (world first_run) shipped_queue_url
             shipped_queue_arn); reflexivity.
  - split; vm_compute; tauto.
Defined.

(** The policy request refused: nothing of the last two steps is asked of
    the provider. *)
Lemma main_stops_with_access_binder_witness :
  result (main (denying is_set_queue_attributes) SimAWS.json_text
            shipped_config SimAWS.empty) =
    inl (ClientError "AccessDenied" "Access to the resource is denied.") /\
  SimAWS.users
    (world (main (denying is_set_queue_attributes) SimAWS.json_text
              shipped_config SimAWS.empty)) = [].
Proof.
  split.
  - apply (main_stops_with_access_binder _ (denying is_set_queue_attributes)
             SimAWS.json_text shipped_config SimAWS.empty shipped_queue_url
             shipped_queue_arn); reflexivity.
  - reflexivity.
Defined.

(** The notification request refused: the policy is set, no user exists. *)
Lemma main_stops_with_event_wiring_witness :
  result (main (denying is_put_notification) SimAWS.json_text
            shipped_config SimAWS.empty) =
    inl (ClientError "AccessDenied" "Access to the resource is denied.") /\
  SimAWS.users
    (world (main (denying is_put_notification) SimAWS.json_text
              shipped_config SimAWS.empty)) = [].
Proof.
  split.
  - apply (main_stops_with_event_wiring _ (denying is_put_notification)
             SimAWS.json_text shipped_config SimAWS.empty shipped_queue_url
             shipped_queue_arn); reflexivity.
  - reflexivity.
Defined.
